(** * data_juicer/utils/model_utils.py: model resolution and caching

    A shallow embedding of the model-artifact resolver ([check_model],
    [get_backup_model_link]), of the process-wide model cache
    ([prepare_model], [get_model]) and of device placement
    ([move_to_cuda]), with the properties of the module proved about it.

    Python values are modelled as follows.
    - Exceptions (including [SystemExit], which the builtin [exit] raises)
      are the [Raise] case of [result]; a bare [except:] catches all of them.
    - The filesystem is a finite map from path strings to node kinds; a path
      string is taken as the canonical name of its node.
    - [functools.partial] objects define neither [__eq__] nor [__hash__]:
      they are compared and hashed by object identity, which the field [pid]
      of [partial] stands for.  [MODEL_ZOO] is therefore a map on [pid]s.
    - The third-party loaders, [wget.download] and [use_cuda] are external:
      they are parameters of the sections that use them. *)

From Stdlib Require Import ZArith DecimalString Ascii String.
From stdpp Require Import base option list strings gmap.

Open Scope string_scope.

(** ** Outcomes of a Python call *)

Inductive exn :=
| TypeError
| UnboundLocalError
| AssertionError
| AttributeError
| IsADirectoryError
| FileNotFoundError
| KeyError
| DownloadError                 (* whatever [wget.download] raises *)
| ExternalError (msg : string)  (* raised by a third-party routine *)
| SystemExit (code : Z).

Inductive result (A : Type) :=
| Ok (a : A)
| Raise (e : exn).
Arguments Ok {A} a.
Arguments Raise {A} e.

(** A computation over a mutable state [S] that may raise. *)
Definition M (S A : Type) : Type := S -> result A * S.

Definition ret {S A} (a : A) : M S A := fun s => (Ok a, s).
Definition raise {S A} (e : exn) : M S A := fun s => (Raise e, s).
Definition bind {S A B} (c : M S A) (k : A -> M S B) : M S B :=
  fun s => match c s with
           | (Ok a, s') => k a s'
           | (Raise e, s') => (Raise e, s')
           end.
(** [try: c except: h] with a bare [except:]: every exception is caught, the
    effects [c] had before raising stay. *)
Definition try_except {S A} (c : M S A) (h : M S A) : M S A :=
  fun s => match c s with
           | (Ok a, s') => (Ok a, s')
           | (Raise _, s') => h s'
           end.

Declare Scope py_scope.
Delimit Scope py_scope with py.
Notation "x <- c ;; k" := (bind c (fun x => k))
  (at level 100, c at next level, right associativity) : py_scope.
Notation "c ;;; k" := (bind c (fun _ => k))
  (at level 100, right associativity) : py_scope.

(** ** Library functions the module calls *)

Module Py.

(** [posixpath.join(a, b)]. *)
Definition ends_with_sep (a : string) : bool :=
  match String.get (String.length a - 1) a with
  | Some c => Ascii.eqb c "/"%char
  | None => false
  end.

Definition path_join (a b : string) : string :=
  if String.prefix "/" b then b
  else if String.eqb a "" || ends_with_sep a then a +:+ b
  else a +:+ "/" +:+ b.

(** [os.path.join(a, b)] where [a] may be [None]: a [TypeError]. *)
Definition path_join_opt (a : option string) (b : string) : result string :=
  match a with
  | Some a => Ok (path_join a b)
  | None => Raise TypeError
  end.

(** [fnmatch.fnmatch(name, pat)] on a POSIX system (no case folding): the
    whole of [name] must match; [*] matches any run of characters, [?] any
    one character, every other character itself.  Bracket classes are not
    modelled: no pattern of this module has one. *)
Fixpoint glob (pat : string) : string -> bool :=
  match pat with
  | EmptyString => fun name => String.eqb name ""
  | String c pat' =>
      if Ascii.eqb c "*"%char then
        fix star (name : string) : bool :=
          glob pat' name ||
          match name with
          | EmptyString => false
          | String _ name' => star name'
          end
      else if Ascii.eqb c "?"%char then
        fun name => match name with
                    | EmptyString => false
                    | String _ name' => glob pat' name'
                    end
      else
        fun name => match name with
                    | EmptyString => false
                    | String d name' => Ascii.eqb c d && glob pat' name'
                    end
  end.

Definition fnmatch (name pat : string) : bool := glob pat name.

(** [str(rank)] for a rank that is [None] or an [int]. *)
Definition str_rank (rank : option Z) : string :=
  match rank with
  | None => "None"
  | Some z => NilZero.string_of_int (Z.to_int z)
  end.

End Py.

(** ** Backup links *)

Definition MODEL_LINKS : string :=
  "https://dail-wlcb.oss-cn-wulanchabu.aliyuncs.com/" +:+
  "data_juicer/models/".

(** The dict literal, in declaration order (a dict iterates in insertion
    order). *)
Definition BACKUP_MODEL_LINKS : list (string * string) :=
  [ ("lid.176.bin",
     "https://dl.fbaipublicfiles.com/fasttext/supervised-models/");
    ("*.sp.model",
     "https://huggingface.co/edugp/kenlm/resolve/main/wikipedia/");
    ("*.arpa.bin",
     "https://huggingface.co/edugp/kenlm/resolve/main/wikipedia/");
    ("punkt.*.pickle",
     "https://dail-wlcb.oss-cn-wulanchabu.aliyuncs.com/" +:+
     "data_juicer/models/") ].

(** The loop of [get_backup_model_link] over the items of a table. *)
Fixpoint first_link (items : list (string * string)) (model_name : string)
  : option string :=
  match items with
  | [] => None
  | (pattern, url) :: items' =>
      if Py.fnmatch model_name pattern then Some url
      else first_link items' model_name
  end.

Definition get_backup_model_link (model_name : string) : option string :=
  first_link BACKUP_MODEL_LINKS model_name.

(** ** The world the resolver acts on *)

Inductive node := File | Dir.

Inductive level := INFO | DEBUG | ERROR.

(** What a run does to the outside, in order. *)
Inductive event :=
| EvMakedirs (path : string)               (* os.makedirs(path) *)
| EvRemove (path : string)                 (* os.remove(path) *)
| EvDownload (url out : string)            (* wget.download(url, out) *)
| EvLog (lvl : level) (msg : string)       (* a logger call, text known *)
| EvLogZooMiss (key : nat)                 (* logger.debug of [get_model] *)
| EvTo (oid : nat) (device : string)       (* module.to(device) *)
| EvLogOnDevice (cls : string) (oid : nat) (* logger.debug of [move_to_cuda] *).

Record Env := { fs : gmap string node; log : list event }.

Definition emit (e : event) : M Env unit :=
  fun w => (Ok tt, {| fs := fs w; log := (log w ++ [e])%list |}).

Definition logger (lvl : level) (msg : string) : M Env unit :=
  emit (EvLog lvl msg).

Definition os_path_exists (path : string) : M Env bool :=
  fun w => (Ok (match fs w !! path with Some _ => true | None => false end), w).

(** [os.makedirs(path)], called on a path that does not exist. *)
Definition os_makedirs (path : string) : M Env unit :=
  fun w => if String.eqb path "" then (Raise FileNotFoundError, w)
           else (Ok tt, {| fs := <[path := Dir]> (fs w);
                           log := (log w ++ [EvMakedirs path])%list |}).

Definition os_remove (path : string) : M Env unit :=
  fun w => match fs w !! path with
           | Some File => (Ok tt, {| fs := delete path (fs w);
                                     log := (log w ++ [EvRemove path])%list |})
           | Some Dir => (Raise IsADirectoryError, w)
           | None => (Raise FileNotFoundError, w)
           end.

Definition is_download (e : event) : bool :=
  match e with EvDownload _ _ => true | _ => false end.

Definition downloads (l : list event) : list event := List.filter is_download l.

Section Resolver.

(** [DATA_JUICER_MODELS_CACHE] of [cache_utils]. *)
Variable DJMC : string.

(** Whether [wget.download] of a URL succeeds, given what happened so far. *)
Variable wget_ok : list event -> string -> bool.

(** [wget.download(url, out, bar=None)]: on failure nothing is left at [out];
    on success the file is written at [out] when nothing is there (an existing
    [out] is never overwritten by [wget]). *)
Definition wget_download (url out : string) : M Env unit :=
  fun w =>
    let log' := (log w ++ [EvDownload url out])%list in
    if wget_ok (log w) url then
      (Ok tt, {| fs := match fs w !! out with
                       | None => <[out := File]> (fs w)
                       | Some _ => fs w
                       end;
                 log := log' |})
    else (Raise DownloadError, {| fs := fs w; log := log' |}).

Definition download_error_message
    (model_name model_link backup_model_link : string) : string :=
  "Downloading model [" +:+ model_name +:+ "] error. " +:+
  "Please retry later or download it into " +:+ DJMC +:+ " " +:+
  "manually from " +:+ model_link +:+ " or " +:+ backup_model_link +:+ " ".

Definition check_model (model_name : string) (force : bool) : M Env string :=
  (is_local <- os_path_exists model_name ;;
   if is_local then ret model_name else
   has_cache <- os_path_exists DJMC ;;
   (if has_cache then ret tt else os_makedirs DJMC) ;;;
   let cached_model_path := Py.path_join DJMC model_name in
   (if force then
      is_cached <- os_path_exists cached_model_path ;;
      (if is_cached then
         os_remove cached_model_path ;;;
         logger INFO ("Model [" +:+ cached_model_path +:+
                      "] invalid, force to downloading...")
       else
         logger INFO ("Model [" +:+ cached_model_path +:+
                      "] not found . Downloading...")) ;;;
      let model_link := Py.path_join MODEL_LINKS model_name in
      try_except
        (wget_download model_link cached_model_path)
        (* the local [backup_model_link] is bound only if the join returns *)
        (let joined :=
           Py.path_join_opt (get_backup_model_link model_name) model_name in
         try_except
           (match joined with
            | Ok backup_model_link =>
                wget_download backup_model_link cached_model_path
            | Raise e => raise e
            end)
           (match joined with
            | Ok backup_model_link =>
                logger ERROR (download_error_message
                                model_name model_link backup_model_link) ;;;
                raise (SystemExit 1)
            | Raise _ => raise UnboundLocalError
            end))
    else ret tt) ;;;
   ret cached_model_path)%py.

End Resolver.

(** ** Loaded models *)

(** The attribute [to] of an object, as [callable(getattr(module, 'to', None))]
    sees it. *)
Inductive attr_to :=
| ToAbsent                            (* no attribute [to], or it is [None] *)
| ToNotCallable                       (* an attribute that is not callable *)
| ToMethod (accepts : string -> bool) (* callable; [false]: the call raises *).

Record pymodule := {
  oid : nat;                (* identity of the object *)
  cls_name : string;        (* module.__class__.__name__ *)
  to_attr : attr_to;
  has_device : bool         (* whether [module.device] can be read *)
}.

#[local] Set Warnings "-register-all".
Inductive pyobj :=
| PyObject (m : pymodule)
| PyTuple (tid : nat) (elems : list pyobj).


(** ** Cache keys *)

Inductive model_func :=
| prepare_fasttext_model
| prepare_sentencepiece_model
| prepare_kenlm_model
| prepare_nltk_model
| prepare_huggingface_model
| prepare_spacy_model
| prepare_diffusion_model.

Definition MODEL_FUNCTION_MAPPING : list (string * model_func) :=
  [ ("fasttext", prepare_fasttext_model);
    ("sentencepiece", prepare_sentencepiece_model);
    ("kenlm", prepare_kenlm_model);
    ("nltk", prepare_nltk_model);
    ("huggingface", prepare_huggingface_model);
    ("spacy", prepare_spacy_model);
    ("diffusion", prepare_diffusion_model) ].

Fixpoint dict_get {V} (d : list (string * V)) (key : string) : option V :=
  match d with
  | [] => None
  | (k, v) :: d' => if String.eqb k key then Some v else dict_get d' key
  end.

Inductive pyval :=
| VNone
| VBool (b : bool)
| VInt (z : Z)
| VStr (s : string).

Definition kwargs := list (string * pyval).

(** A [functools.partial(func, **keywords)] object.  [pid] is its identity:
    [==], [hash] and dict membership of such objects go by it alone. *)
Record partial := { pid : nat; func : model_func; keywords : kwargs }.


(** ** The process *)

Record World := {
  env : Env;
  MODEL_ZOO : gmap nat pyobj;   (* keyed by the identity of the partial *)
  next_pid : nat;               (* identities below it are taken *)
  calls : list partial          (* every [model_key()] made so far, in order *)
}.

Definition initial (e : Env) : World :=
  {| env := e; MODEL_ZOO := ∅; next_pid := 0; calls := [] |}.

Definition lift_env {A} (c : M Env A) : M World A :=
  fun w => let (r, e) := c (env w) in
           (r, {| env := e; MODEL_ZOO := MODEL_ZOO w;
                  next_pid := next_pid w; calls := calls w |}).

(** [partial(model_func, **model_kwargs)]: a new object. *)
Definition new_partial (f : model_func) (kw : kwargs) : M World partial :=
  fun w => (Ok {| pid := next_pid w; func := f; keywords := kw |},
            {| env := env w; MODEL_ZOO := MODEL_ZOO w;
               next_pid := S (next_pid w); calls := calls w |}).

(** [model_key in MODEL_ZOO] *)
Definition zoo_contains (model_key : partial) : M World bool :=
  fun w => (Ok (match MODEL_ZOO w !! pid model_key with
                | Some _ => true | None => false end), w).

(** [MODEL_ZOO[model_key]] *)
Definition zoo_get (model_key : partial) : M World pyobj :=
  fun w => match MODEL_ZOO w !! pid model_key with
           | Some model => (Ok model, w)
           | None => (Raise KeyError, w)
           end.

(** [MODEL_ZOO[model_key] = model_objects] *)
Definition zoo_set (model_key : partial) (model_objects : pyobj)
  : M World unit :=
  fun w => (Ok tt,
            {| env := env w;
               MODEL_ZOO := <[pid model_key := model_objects]> (MODEL_ZOO w);
               next_pid := next_pid w; calls := calls w |}).

(** ** Device placement *)

Fixpoint for_each {S A} (xs : list A) (body : A -> M S unit) : M S unit :=
  match xs with
  | [] => ret tt
  | x :: xs' => (body x ;;; for_each xs' body)%py
  end.

(** [model if isinstance(model, tuple) else (model, )] *)
Definition as_modules (model : pyobj) : list pyobj :=
  match model with
  | PyTuple _ elems => elems
  | PyObject _ => [model]
  end.

Definition cuda_device (rank : option Z) : string :=
  "cuda:" +:+ Py.str_rank rank.

(** The body of the loop of [move_to_cuda]. *)
Definition place_module (rank : option Z) (module : pyobj) : M Env unit :=
  match module with
  | PyObject m =>
      match to_attr m with
      | ToMethod accepts =>
          (logger INFO ("Moving " +:+ cls_name m +:+ " to CUDA device " +:+
                        Py.str_rank rank) ;;;
           emit (EvTo (oid m) (cuda_device rank)) ;;;
           (if accepts (cuda_device rank) then ret tt
            else raise (ExternalError "to")) ;;;
           if has_device m then emit (EvLogOnDevice (cls_name m) (oid m))
           else raise AttributeError)%py
      | _ => ret tt
      end
  | PyTuple _ _ => ret tt
  end.

Definition move_to_cuda (model : pyobj) (rank : option Z) : M Env unit :=
  for_each (as_modules model) (place_module rank).

(** ** The model cache *)

Section Zoo.

(** What calling a loader with keyword arguments does and returns. *)
Variable call_loader : model_func -> kwargs -> M Env pyobj.

(** [use_cuda()] of [data_juicer]. *)
Variable use_cuda : bool.

(** [model_key()] *)
Definition call_partial (model_key : partial) : M World pyobj :=
  fun w =>
    lift_env (call_loader (func model_key) (keywords model_key))
      {| env := env w; MODEL_ZOO := MODEL_ZOO w; next_pid := next_pid w;
         calls := (calls w ++ [model_key])%list |}.

Definition prepare_model (model_type : string) (model_kwargs : kwargs)
  : M World partial :=
  match dict_get MODEL_FUNCTION_MAPPING model_type with
  | None => raise AssertionError
  | Some model_func =>
      (model_key <- new_partial model_func model_kwargs ;;
       model_objects <- call_partial model_key ;;
       zoo_set model_key model_objects ;;;
       ret model_key)%py
  end.

Definition get_model (model_key : option partial) (rank : option Z)
  : M World (option pyobj) :=
  match model_key with
  | None => ret None
  | Some model_key =>
      (present <- zoo_contains model_key ;;
       (if present then ret tt
        else
          lift_env (emit (EvLogZooMiss (pid model_key))) ;;;
          model_objects <- call_partial model_key ;;
          zoo_set model_key model_objects) ;;;
       (if use_cuda then
          let rank := match rank with None => Some 0%Z | Some _ => rank end in
          model <- zoo_get model_key ;;
          lift_env (move_to_cuda model rank)
        else ret tt) ;;;
       model <- zoo_get model_key ;;
       ret (Some model))%py
  end.

(** *** Runs of the process *)

Inductive op :=
| Register (model_type : string) (model_kwargs : kwargs)
| Get (model_key : option partial) (rank : option Z)
| Place (model : pyobj) (rank : option Z)
| MakeKey (f : model_func) (kw : kwargs).

Definition run_op (o : op) (w : World) : World :=
  match o with
  | Register model_type model_kwargs =>
      snd (prepare_model model_type model_kwargs w)
  | Get model_key rank => snd (get_model model_key rank w)
  | Place model rank => snd (lift_env (move_to_cuda model rank) w)
  | MakeKey f kw => snd (new_partial f kw w)
  end.

(** A key handed to [get_model] is an object that exists. *)
Definition op_ok (o : op) (w : World) : Prop :=
  match o with
  | Get (Some model_key) _ => pid model_key < next_pid w
  | _ => True
  end.

Inductive steps : World -> World -> Prop :=
| steps_refl w : steps w w
| steps_op w o w' : op_ok o w -> steps (run_op o w) w' -> steps w w'.

Definition reachable (w : World) : Prop := exists e, steps (initial e) w.

End Zoo.

(** * The loaders

    The seven functions of [MODEL_FUNCTION_MAPPING] wrap third-party
    libraries.  Those embedded here resolve their artifact with
    [check_model]; the third-party calls are parameters.
    [prepare_huggingface_model] goes through third-party calls only and is
    not embedded. *)

(** Exception classes that [exn] has no constructor for are carried by
    [ExternalError], the class name first. *)
Definition ValueError (msg : string) : exn :=
  ExternalError ("ValueError: " +:+ msg).

(** [s] between double quotes. *)
Definition quoted (s : string) : string :=
  String (Ascii.ascii_of_nat 34) (s +:+ String (Ascii.ascii_of_nat 34) "").

(** A value that is already computed, or the exception it raised. *)
Definition lift_result {S A} (r : result A) : M S A := fun s => (r, s).

(** [s.replace(old, new)]: every occurrence, left to right, none
    overlapping. *)
Fixpoint replace_from (old new : string) (skip : nat) (s : string) : string :=
  match s with
  | EmptyString => EmptyString
  | String c s' =>
      match skip with
      | S k => replace_from old new k s'
      | O =>
          if String.prefix old s
          then new +:+ replace_from old new (String.length old - 1) s'
          else String c (replace_from old new 0 s')
      end
  end.

(** With an empty [old], [new] goes before every character and at the end. *)
Fixpoint replace_empty (new : string) (s : string) : string :=
  match s with
  | EmptyString => new
  | String c s' => new +:+ String c (replace_empty new s')
  end.

Definition str_replace (old new s : string) : string :=
  if String.eqb old "" then replace_empty new s
  else replace_from old new 0 s.

(** [os.path.exists(path) and os.path.isdir(path)] *)
Definition os_path_is_existing_dir (path : string) : M Env bool :=
  fun w => (Ok (match fs w !! path with Some Dir => true | _ => false end), w).

Definition nltk_to_punkt : list (string * string) :=
  [ ("en", "english");
    ("fr", "french");
    ("pt", "portuguese");
    ("es", "spanish") ].

Inductive pipeline :=
| AutoPipelineForImage2Image
| AutoPipelineForText2Image
| AutoPipelineForInpainting.

Definition diffusion_type_to_pipeline : list (string * pipeline) :=
  [ ("image2image", AutoPipelineForImage2Image);
    ("text2image", AutoPipelineForText2Image);
    ("inpainting", AutoPipelineForInpainting) ].

Inductive torch_dtype := float32 | float16.

Fixpoint str_in (x : string) (l : list string) : bool :=
  match l with
  | [] => false
  | y :: l' => String.eqb x y || str_in x l'
  end.

Module Loaders.

Section ThirdParty.

Variable DJMC : string.
Variable wget_ok : list event -> string -> bool.
Variable use_cuda : bool.

(** [name_pattern.format(arg)] with one string argument. *)
Variable str_format : string -> string -> result string.

(** [fasttext.load_model(path)] *)
Variable fasttext_load_model : string -> M Env pyobj.
(** [sentencepiece.SentencePieceProcessor()] and its method [load(path)] *)
Variable SentencePieceProcessor : M Env pyobj.
Variable sentencepiece_load : pyobj -> string -> M Env unit.
(** [kenlm.Model(path)] *)
Variable kenlm_Model : string -> M Env pyobj.
(** [nltk.data.load(path)] *)
Variable nltk_load : string -> M Env pyobj.
(** [spacy.load(path)] *)
Variable spacy_load : string -> M Env pyobj.
(** [with zipfile.ZipFile(path) as zf: zf.extractall(dest)] *)
Variable zip_extractall : string -> string -> M Env unit.
(** [pipeline.from_pretrained(name, revision=..., torch_dtype=...)] *)
Variable pipeline_from_pretrained :
  pipeline -> string -> string -> torch_dtype -> M Env pyobj.

Definition prepare_fasttext_model (model_name : string) : M Env pyobj :=
  (logger INFO "Loading fasttext language identification model..." ;;;
   try_except
     (path <- check_model DJMC wget_ok model_name false ;;
      fasttext_load_model path)
     (path <- check_model DJMC wget_ok model_name true ;;
      fasttext_load_model path))%py.

Definition prepare_sentencepiece_model (lang name_pattern : string)
  : M Env pyobj :=
  (model_name <- lift_result (str_format name_pattern lang) ;;
   logger INFO "Loading sentencepiece model..." ;;;
   sentencepiece_model <- SentencePieceProcessor ;;
   try_except
     (path <- check_model DJMC wget_ok model_name false ;;
      sentencepiece_load sentencepiece_model path)
     (path <- check_model DJMC wget_ok model_name true ;;
      sentencepiece_load sentencepiece_model path) ;;;
   ret sentencepiece_model)%py.

Definition prepare_kenlm_model (lang name_pattern : string) : M Env pyobj :=
  (model_name <- lift_result (str_format name_pattern lang) ;;
   logger INFO "Loading kenlm language model..." ;;;
   try_except
     (path <- check_model DJMC wget_ok model_name false ;; kenlm_Model path)
     (path <- check_model DJMC wget_ok model_name true ;; kenlm_Model path))%py.

Definition prepare_nltk_model (lang name_pattern : string) : M Env pyobj :=
  match dict_get nltk_to_punkt lang with
  | None => raise AssertionError
  | Some punkt =>
      (model_name <- lift_result (str_format name_pattern punkt) ;;
       logger INFO "Loading nltk punkt split model..." ;;;
       try_except
         (path <- check_model DJMC wget_ok model_name false ;; nltk_load path)
         (path <- check_model DJMC wget_ok model_name true ;; nltk_load path))%py
  end.

(** The local function of [prepare_spacy_model]. *)
Definition decompress_model (compressed_model_path : string) : M Env string :=
  let decompressed_model_path := str_replace ".zip" "" compressed_model_path in
  (is_dir <- os_path_is_existing_dir decompressed_model_path ;;
   if is_dir then ret decompressed_model_path
   else
     zip_extractall compressed_model_path DJMC ;;;
     ret decompressed_model_path)%py.

Definition prepare_spacy_model (lang name_pattern : string) : M Env pyobj :=
  if negb (str_in lang ["zh"; "en"]) then raise AssertionError
  else
    (model_name <- lift_result (str_format name_pattern lang) ;;
     logger INFO ("Loading spacy model [" +:+ model_name +:+ "]...") ;;;
     (* '{}.zip'.format(model_name) *)
     let compressed_model := model_name +:+ ".zip" in
     try_except
       (path <- check_model DJMC wget_ok compressed_model false ;;
        dir <- decompress_model path ;;
        spacy_load dir)
       (path <- check_model DJMC wget_ok compressed_model true ;;
        dir <- decompress_model path ;;
        spacy_load dir))%py.

(** The pipeline is looked up where the source tests the membership of
    [diffusion_type]; the source reads it after the three tests. *)
Definition prepare_diffusion_model
    (pretrained_model_name_or_path diffusion_type floating_point : string)
  : M Env pyobj :=
  match dict_get diffusion_type_to_pipeline diffusion_type with
  | None =>
      raise (ValueError
               ("Not support " +:+ diffusion_type +:+
                " diffusion_type for diffusion model. Can only be one of " +:+
                "[" +:+ quoted "image2image" +:+ ", " +:+
                quoted "text2image" +:+ ", " +:+
                quoted "inpainting" +:+ "]."))
  | Some pipeline =>
      if negb (str_in floating_point ["fp32"; "fp16"]) then
        raise (ValueError
                 ("Not support " +:+ floating_point +:+
                  " floating_point for diffusion model. " +:+
                  "Can only be one of [" +:+ quoted "fp32" +:+ ", " +:+
                  quoted "fp16" +:+ "]."))
      else if negb use_cuda && String.eqb floating_point "fp16" then
        raise (ValueError
                 ("In cpu mode, only fp32 floating_point can be used for " +:+
                  "diffusion model."))
      else
        let revision := floating_point in
        let torch_dtype :=
          if String.eqb floating_point "fp32" then float32 else float16 in
        pipeline_from_pretrained pipeline pretrained_model_name_or_path
          revision torch_dtype
  end.

End ThirdParty.

End Loaders.

(** * Vocabulary of the statements *)

(** ** Resolver *)

Definition no_match (model_name : string) (items : list (string * string))
  : bool :=
  forallb (fun item => negb (Py.fnmatch model_name (fst item))) items.

Definition invalid_message (cached_model_path : string) : string :=
  "Model [" +:+ cached_model_path +:+ "] invalid, force to downloading...".

Definition not_found_message (cached_model_path : string) : string :=
  "Model [" +:+ cached_model_path +:+ "] not found . Downloading...".

Definition is_error_log (e : event) : bool :=
  match e with EvLog ERROR _ => true | _ => false end.

(** The world once [check_model] has made sure that [DJMC] exists. *)
Definition ensure_cache_dir (DJMC : string) (w : Env) : Env :=
  match fs w !! DJMC with
  | Some _ => w
  | None => {| fs := <[DJMC := Dir]> (fs w);
               log := (log w ++ [EvMakedirs DJMC])%list |}
  end.

(** The log of a forced call up to its first download. *)
Definition forced_prelude (DJMC cached_model_path : string) (w : Env)
  : list event :=
  (log (ensure_cache_dir DJMC w) ++
   match fs (ensure_cache_dir DJMC w) !! cached_model_path with
   | Some _ => [EvRemove cached_model_path;
                EvLog INFO (invalid_message cached_model_path)]
   | None => [EvLog INFO (not_found_message cached_model_path)]
   end)%list.

Definition empty_env : Env := {| fs := ∅; log := [] |}.

(** ** Device placement *)

(** The [to] calls of a log: which object, which device. *)
Definition to_calls (l : list event) : list (nat * string) :=
  flat_map (fun e => match e with EvTo o d => [(o, d)] | _ => [] end) l.



(** ** Cache *)

Definition set_env (e : Env) (w : World) : World :=
  {| env := e; MODEL_ZOO := MODEL_ZOO w; next_pid := next_pid w;
     calls := calls w |}.

(** [0 if rank is None else rank] *)
Definition default_rank (rank : option Z) : option Z :=
  match rank with None => Some 0%Z | Some _ => rank end.

(** What [get_model] returns once [model] is the entry of its key, from the
    environment [e] on. *)
Definition outcome_of_get (use_cuda : bool) (model : pyobj) (rank : option Z)
    (e : Env) : result (option pyobj) :=
  if use_cuda then
    match fst (move_to_cuda model (default_rank rank) e) with
    | Ok _ => Ok (Some model)
    | Raise x => Raise x
    end
  else Ok (Some model).

(** The tail of [get_model], once [model] is the entry of its key. *)
Definition place_and_return (use_cuda : bool) (model : pyobj)
    (rank : option Z) : M World (option pyobj) :=
  fun w =>
    if use_cuda then
      match move_to_cuda model (default_rank rank) (env w) with
      | (Ok _, e) => (Ok (Some model), set_env e w)
      | (Raise x, e) => (Raise x, set_env e w)
      end
    else (Ok (Some model), w).

(** The world when [get_model] has found no entry and calls the key. *)
Definition miss_world (model_key : partial) (w : World) : World :=
  {| env := {| fs := fs (env w);
               log := (log (env w) ++ [EvLogZooMiss (pid model_key)])%list |};
     MODEL_ZOO := MODEL_ZOO w; next_pid := next_pid w;
     calls := (calls w ++ [model_key])%list |}.

Definition store (model_key : partial) (model : pyobj) (e : Env) (w : World)
  : World :=
  {| env := e; MODEL_ZOO := <[pid model_key := model]> (MODEL_ZOO w);
     next_pid := next_pid w; calls := calls w |}.

(** Every key of the table is an object that exists. *)
Definition zoo_wf (w : World) : Prop :=
  forall k, is_Some (MODEL_ZOO w !! k) -> k < next_pid w.

Definition extends (w w' : World) : Prop :=
  next_pid w <= next_pid w' /\
  forall k model,
    MODEL_ZOO w !! k = Some model -> MODEL_ZOO w' !! k = Some model.

(** ** A loader to run the cache on *)

Definition example_module (id : nat) (cls : string) (placeable : bool)
  : pyobj :=
  PyObject {| oid := id; cls_name := cls;
              to_attr := if placeable then ToMethod (fun _ => true)
                         else ToAbsent;
              has_device := placeable |}.

(** It logs, as the loaders of the module do, and returns objects whose
    identities are new. *)
Definition example_loader (f : model_func) (kw : kwargs) : M Env pyobj :=
  fun e =>
    let n := length (log e) in
    let e' := {| fs := fs e;
                 log := (log e ++ [EvLog INFO "Loading..."])%list |} in
    match f with
    | prepare_huggingface_model =>
        (Ok (PyTuple n [example_module (n + 1) "BertModel" true;
                        example_module (n + 2) "BertTokenizer" false]), e')
    | prepare_diffusion_model =>
        match dict_get kw "diffusion_type" with
        | Some _ => (Ok (example_module n "Pipeline" true), e')
        | None => (Raise TypeError, e)
        end
    | _ => (Ok (example_module n "Model" false), e')
    end.

(** ** Patterns and names *)

(** A character that stands for itself in a pattern of [Py.glob]. *)
Definition plain_char (c : ascii) : bool :=
  negb (Ascii.eqb c "*"%char) && negb (Ascii.eqb c "?"%char).

Fixpoint plain (s : string) : bool :=
  match s with
  | EmptyString => true
  | String c s' => plain_char c && plain s'
  end.

Fixpoint last_char (s : string) : option ascii :=
  match s with
  | EmptyString => None
  | String c EmptyString => Some c
  | String _ s' => last_char s'
  end.

Definition fasttext_backup : string :=
  "https://dl.fbaipublicfiles.com/fasttext/supervised-models/".

Definition kenlm_backup : string :=
  "https://huggingface.co/edugp/kenlm/resolve/main/wikipedia/".

(** ** Forced resolution *)

(** The world after a forced call: the cache directory exists, the cached
    path holds the fetched file or nothing, the log has the prelude and the
    events of the downloads. *)
Definition forced_world (DJMC cached_model_path : string) (w : Env)
    (fetched : bool) (events : list event) : Env :=
  {| fs := if fetched
           then <[cached_model_path := File]> (fs (ensure_cache_dir DJMC w))
           else delete cached_model_path (fs (ensure_cache_dir DJMC w));
     log := (forced_prelude DJMC cached_model_path w ++ events)%list |}.

(** What a forced call does, by the answers of the network: the first link,
    then the backup link when there is one. *)
Definition forced_outcome (DJMC : string)
    (wget_ok : list event -> string -> bool) (model_name : string) (w : Env)
  : result string * Env :=
  let cached_model_path := Py.path_join DJMC model_name in
  let model_link := Py.path_join MODEL_LINKS model_name in
  let l0 := forced_prelude DJMC cached_model_path w in
  let first := EvDownload model_link cached_model_path in
  if wget_ok l0 model_link then
    (Ok cached_model_path, forced_world DJMC cached_model_path w true [first])
  else
    match get_backup_model_link model_name with
    | None =>
        (Raise UnboundLocalError,
         forced_world DJMC cached_model_path w false [first])
    | Some url =>
        let backup_model_link := Py.path_join url model_name in
        let second := EvDownload backup_model_link cached_model_path in
        if wget_ok (l0 ++ [first])%list backup_model_link then
          (Ok cached_model_path,
           forced_world DJMC cached_model_path w true [first; second])
        else
          (Raise (SystemExit 1),
           forced_world DJMC cached_model_path w false
             [first; second;
              EvLog ERROR (download_error_message DJMC model_name model_link
                             backup_model_link)])
    end.

(** ** Loaders *)

(** The world once a loader has logged that it loads. *)
Definition loading_world (msg : string) (w : Env) : Env :=
  {| fs := fs w; log := (log w ++ [EvLog INFO msg])%list |}.

(** The two attempts every loader makes. *)
Definition load_with_retry {A} (DJMC : string)
    (wget_ok : list event -> string -> bool) (load : string -> M Env A)
    (model_name : string) : M Env A :=
  try_except
    (path <- check_model DJMC wget_ok model_name false ;; load path)%py
    (path <- check_model DJMC wget_ok model_name true ;; load path)%py.

(** What is left of [load_with_retry] once its first attempt has failed. *)
Definition load_forced {A} (DJMC : string)
    (wget_ok : list event -> string -> bool) (load : string -> M Env A)
    (model_name : string) (w : Env) : result A * Env :=
  match forced_outcome DJMC wget_ok model_name w with
  | (Ok path, w') => load path w'
  | (Raise e, w') => (Raise e, w')
  end.

(** A third-party reader to run the loaders on: it reads the file at the
    path, and raises where there is none. *)
Definition example_load (cls : string) (path : string) : M Env pyobj :=
  fun w => match fs w !! path with
           | Some File => (Ok (example_module (length (log w)) cls false), w)
           | _ => (Raise (ExternalError "cannot open"), w)
           end.

(** It puts the argument where the pattern has its braces. *)
Definition example_format (pattern arg : string) : result string :=
  Ok (str_replace "{}" arg pattern).

(** Shapes of model names. *)
Definition ends_in (lit s : string) : Prop := exists a, s = a +:+ lit.

Definition punkt_name (s : string) : Prop :=
  exists x, s = "punkt." +:+ x +:+ ".pickle".

(** The lines the loaders log before they resolve a name. *)
Definition fasttext_loading : string :=
  "Loading fasttext language identification model...".

Definition kenlm_loading : string := "Loading kenlm language model...".
Definition sentencepiece_loading : string := "Loading sentencepiece model...".
Definition nltk_loading : string := "Loading nltk punkt split model...".
Definition spacy_loading (model_name : string) : string :=
  "Loading spacy model [" +:+ model_name +:+ "]...".

(** A third-party reader of directories, for the spacy loader. *)
Definition example_load_dir (cls : string) (path : string) : M Env pyobj :=
  fun w => match fs w !! path with
           | Some Dir => (Ok (example_module (length (log w)) cls false), w)
           | _ => (Raise (ExternalError "cannot open"), w)
           end.

(** Whether [prepare_diffusion_model] accepts its configuration. *)
Definition diffusion_config_ok (use_cuda : bool)
    (diffusion_type floating_point : string) : bool :=
  match dict_get diffusion_type_to_pipeline diffusion_type with
  | Some _ => true
  | None => false
  end
  && str_in floating_point ["fp32"; "fp16"]
  && (use_cuda || String.eqb floating_point "fp32").

(** ** Proof steps *)

(** Unfolds one layer of the resolver's primitives. *)
Ltac step_env :=
  unfold bind, ret, raise, try_except, logger, emit, os_path_exists,
    os_remove, os_makedirs, wget_download;
  cbn [fst snd fs log].

Ltac close_log :=
  eexists; split;
  [ rewrite <- ?app_assoc; cbn [app]; reflexivity
  | cbn [fst snd fs log];
    first [ split; [reflexivity | apply lookup_insert_eq]
          | apply lookup_delete_eq
          | reflexivity ] ].

(** Computes the fields of the worlds built by the cache. *)
Ltac proj :=
  unfold store, set_env, miss_world;
  cbn [fst snd env MODEL_ZOO next_pid calls fs log pid func keywords].

(** * Properties *)

(** ** The library models on examples *)

Example glob_examples :
  Py.fnmatch "en.sp.model" "*.sp.model" = true /\
  Py.fnmatch "en.sp.model.bak" "*.sp.model" = false /\
  Py.fnmatch "punkt.english.pickle" "punkt.*.pickle" = true /\
  Py.fnmatch "lid.176.bin" "lid.176.bin" = true /\
  Py.fnmatch "lid_176_bin" "lid.176.bin" = false /\
  Py.fnmatch ".sp.model" "*.sp.model" = true /\
  Py.fnmatch "a.sp.model.sp.model" "*.sp.model" = true.
Proof. repeat split; reflexivity. Qed.

Example path_join_examples :
  Py.path_join "/cache" "lid.176.bin" = "/cache/lid.176.bin" /\
  Py.path_join "/cache/" "lid.176.bin" = "/cache/lid.176.bin" /\
  Py.path_join "/cache" "/abs/m.bin" = "/abs/m.bin" /\
  Py.path_join "" "m.bin" = "m.bin" /\
  Py.path_join "/cache" "" = "/cache/" /\
  Py.path_join MODEL_LINKS "en.arpa.bin" = MODEL_LINKS +:+ "en.arpa.bin".
Proof. repeat split; reflexivity. Qed.

(** ** Backup links *)

Lemma first_link_spec (items : list (string * string)) (model_name : string) :
  match first_link items model_name with
  | Some url =>
      exists before pattern after,
        items = (before ++ (pattern, url) :: after)%list /\
        no_match model_name before = true /\
        Py.fnmatch model_name pattern = true
  | None => no_match model_name items = true
  end.
Proof.
  induction items as [|[pattern url] items IH]; cbn [first_link];
    [reflexivity|].
  destruct (Py.fnmatch model_name pattern) eqn:Hm.
  - exists [], pattern, items. repeat split; assumption.
  - destruct (first_link items model_name) as [u|].
    + destruct IH as (before & p & after & -> & Hno & Hp).
      exists ((pattern, url) :: before), p, after.
      repeat split; [|assumption].
      unfold no_match; cbn [forallb fst]. rewrite Hm. exact Hno.
    + unfold no_match; cbn [forallb fst]. rewrite Hm. exact IH.
Qed.

(** C4. [get_backup_model_link] runs the loop over the declared table; the
    loop, over any table, returns the URL of the first item, in the order of
    the table, whose pattern matches the name: no item before it matches, and
    the items after it play no part, whether or not they match and whatever
    their URLs; it returns [None] exactly when no pattern matches. *)
Theorem get_backup_model_link_first_match :
  forall model_name : string,
    get_backup_model_link model_name =
      first_link BACKUP_MODEL_LINKS model_name /\
    forall items : list (string * string),
      match first_link items model_name with
      | Some url =>
          exists before pattern after,
            items = (before ++ (pattern, url) :: after)%list /\
            no_match model_name before = true /\
            Py.fnmatch model_name pattern = true
      | None => no_match model_name items = true
      end.
Proof.
  intros model_name. split; [reflexivity|].
  intros items. apply first_link_spec.
Qed.

Example first_match_wins_over_later_match :
  first_link [("*.bin", "https://a/"); ("lid.*", "https://b/")] "lid.176.bin"
  = Some "https://a/" /\
  Py.fnmatch "lid.176.bin" "lid.*" = true.
Proof. split; reflexivity. Qed.

Example get_backup_model_link_examples :
  get_backup_model_link "lid.176.bin"
  = Some "https://dl.fbaipublicfiles.com/fasttext/supervised-models/" /\
  get_backup_model_link "en.arpa.bin"
  = Some "https://huggingface.co/edugp/kenlm/resolve/main/wikipedia/" /\
  get_backup_model_link "punkt.english.pickle" = Some MODEL_LINKS /\
  get_backup_model_link "en_core_web_md-3.5.0.zip" = None.
Proof. repeat split; reflexivity. Qed.

(** ** The resolver *)

Lemma path_join_empty_l (b : string) : Py.path_join "" b = b.
Proof. unfold Py.path_join. destruct (String.prefix "/" b); reflexivity. Qed.

(** C10. A model name that names an existing path is returned as it is and
    the world is left as it was, for both values of [force]: nothing is
    removed, nothing is downloaded, no directory is made, nothing is logged. *)
Theorem check_model_local_path_returned_untouched :
  forall DJMC wget_ok model_name force w,
    is_Some (fs w !! model_name) ->
    check_model DJMC wget_ok model_name force w = (Ok model_name, w).
Proof.
  intros DJMC wget_ok model_name force w [n Hn].
  unfold check_model. step_env. rewrite Hn. reflexivity.
Qed.

Lemma check_model_local_path_returned_untouched_witness :
  let w := {| fs := {[ "/data/lid.176.bin" := File ]}; log := [] |} in
  check_model "/cache" (fun _ _ => false) "/data/lid.176.bin" true w
  = (Ok "/data/lid.176.bin", w).
Proof.
  intros w.
  apply (check_model_local_path_returned_untouched
           "/cache" (fun _ _ => false) "/data/lid.176.bin" true w).
  exists File. vm_compute. reflexivity.
Defined.

(** C8. With [force] set, a name that is no local path and a file present at
    the cached path: the file is removed first, then the first download is
    attempted, whatever the downloads then do.  Before the removal at most the
    cache directory is made.  If the call returns, the file at the cached
    path is the downloaded one; if it raises, nothing is at the cached path. *)
Theorem check_model_force_deletes_before_download :
  forall DJMC wget_ok model_name w,
    fs w !! model_name = None ->
    fs w !! Py.path_join DJMC model_name = Some File ->
    let cached_model_path := Py.path_join DJMC model_name in
    let r := check_model DJMC wget_ok model_name true w in
    exists after,
      log (snd r) =
        (log w ++
         match fs w !! DJMC with Some _ => [] | None => [EvMakedirs DJMC] end ++
         EvRemove cached_model_path ::
         EvLog INFO (invalid_message cached_model_path) ::
         EvDownload (Py.path_join MODEL_LINKS model_name) cached_model_path ::
         after)%list /\
      match fst r with
      | Ok path =>
          path = cached_model_path /\
          fs (snd r) !! cached_model_path = Some File
      | Raise _ => fs (snd r) !! cached_model_path = None
      end.
Proof.
  intros DJMC wget_ok model_name w Hlocal Hcached cached r.
  assert (HD : DJMC <> "").
  { intros ->. unfold cached in *. rewrite path_join_empty_l in Hcached.
    congruence. }
  apply String.eqb_neq in HD.
  assert (Hkeep : fs w !! DJMC = None ->
                  <[DJMC := Dir]> (fs w) !! cached = Some File).
  { intros HN. rewrite lookup_insert_ne; [assumption|].
    intros E. rewrite E in HN. unfold cached in HN. congruence. }
  subst r. unfold check_model, invalid_message.
  fold cached. fold cached in Hcached.
  remember (Py.path_join MODEL_LINKS model_name) as link.
  remember (Py.path_join_opt (get_backup_model_link model_name) model_name)
    as joined.
  clearbody cached.
  step_env. rewrite Hlocal.
  destruct (fs w !! DJMC) as [d|] eqn:HDJ; step_env; rewrite ?HD; step_env.
  - repeat (rewrite Hcached; cbn [fst snd fs log]).
    destruct (wget_ok _ link); cbn [fst snd fs log].
    + rewrite lookup_delete_eq. close_log.
    + destruct joined as [backup|e]; [destruct (wget_ok _ backup)|];
        cbn [fst snd fs log]; rewrite ?lookup_delete_eq; close_log.
  - repeat (rewrite (Hkeep eq_refl); cbn [fst snd fs log]).
    destruct (wget_ok _ link); cbn [fst snd fs log].
    + rewrite lookup_delete_eq. close_log.
    + destruct joined as [backup|e]; [destruct (wget_ok _ backup)|];
        cbn [fst snd fs log]; rewrite ?lookup_delete_eq; close_log.
Qed.

Lemma check_model_force_deletes_before_download_witness :
  let w := {| fs := {[ "/cache" := Dir; "/cache/en.sp.model" := File ]};
              log := [] |} in
  let r := check_model "/cache" (fun _ _ => false) "en.sp.model" true w in
  exists after,
    log (snd r) =
      (log w ++
       match fs w !! "/cache" with
       | Some _ => [] | None => [EvMakedirs "/cache"] end ++
       EvRemove (Py.path_join "/cache" "en.sp.model") ::
       EvLog INFO (invalid_message (Py.path_join "/cache" "en.sp.model")) ::
       EvDownload (Py.path_join MODEL_LINKS "en.sp.model")
                  (Py.path_join "/cache" "en.sp.model") ::
       after)%list /\
    match fst r with
    | Ok path =>
        path = Py.path_join "/cache" "en.sp.model" /\
        fs (snd r) !! Py.path_join "/cache" "en.sp.model" = Some File
    | Raise _ => fs (snd r) !! Py.path_join "/cache" "en.sp.model" = None
    end.
Proof.
  intros w.
  apply (check_model_force_deletes_before_download
           "/cache" (fun _ _ => false) "en.sp.model" w);
    vm_compute; reflexivity.
Defined.

(** Without [force], a name that is no local path: the cached path is
    returned, and nothing is done but making the cache directory when it is
    missing.  Nothing is downloaded, whether or not the cached file exists. *)
Lemma check_model_without_force :
  forall DJMC wget_ok model_name w,
    fs w !! model_name = None ->
    DJMC <> "" ->
    check_model DJMC wget_ok model_name false w =
      (Ok (Py.path_join DJMC model_name), ensure_cache_dir DJMC w).
Proof.
  intros DJMC wget_ok model_name w Hlocal HD.
  apply String.eqb_neq in HD.
  unfold check_model, ensure_cache_dir. step_env. rewrite Hlocal.
  destruct (fs w !! DJMC); step_env; rewrite ?HD; reflexivity.
Qed.

(** With [force], a call that returns has downloaded, and returns the cached
    path, at which the downloaded file is. *)
Lemma check_model_force_returns_existing_file :
  forall DJMC wget_ok model_name w path w',
    fs w !! model_name = None ->
    check_model DJMC wget_ok model_name true w = (Ok path, w') ->
    path = Py.path_join DJMC model_name /\
    fs w' !! path = Some File /\
    downloads (log w') <> downloads (log w).
Proof.
  intros DJMC wget_ok model_name w path w' Hlocal.
  unfold check_model.
  remember (Py.path_join DJMC model_name) as cached.
  remember (Py.path_join MODEL_LINKS model_name) as link.
  remember (Py.path_join_opt (get_backup_model_link model_name) model_name)
    as joined.
  step_env. rewrite Hlocal.
  destruct (fs w !! DJMC) as [d|] eqn:HDJ; step_env;
    [|destruct (String.eqb DJMC ""); [discriminate|]]; step_env;
    match goal with
    | |- context [ ?m !! cached ] => destruct (m !! cached) as [[|]|] eqn:Hc
    end; cbn [fst snd fs log]; rewrite ?Hc; cbn [fst snd fs log];
    try discriminate;
    (destruct (wget_ok _ link); cbn [fst snd fs log];
     rewrite ?lookup_delete_eq, ?Hc;
     [|destruct joined as [backup|e]; [destruct (wget_ok _ backup)|];
       cbn [fst snd fs log]; rewrite ?lookup_delete_eq, ?Hc]);
    try discriminate;
    intros H; injection H as <- <-; cbn [fst snd fs log];
    (split; [reflexivity|]); (split; [apply lookup_insert_eq|]);
    unfold downloads; rewrite !List.filter_app;
    cbn [List.filter is_download app]; rewrite ?app_nil_r;
    intros E; apply (f_equal (@length _)) in E; rewrite ?length_app in E;
    cbn [length] in E; lia.
Qed.

(** C1, on the code.  With [force=False], nothing at the cached path and a
    network that would serve the file: [check_model] makes the cache
    directory and returns the cached path; it downloads nothing, and no file
    is at the path it returns. *)
Theorem check_model_without_force_returns_missing_path :
  let w := empty_env in
  let r := check_model "/cache" (fun _ _ => true) "lid.176.bin" false w in
  fs w !! "lid.176.bin" = None /\
  fst r = Ok "/cache/lid.176.bin" /\
  fs (snd r) !! "/cache/lid.176.bin" = None /\
  downloads (log (snd r)) = [] /\
  log (snd r) = [EvMakedirs "/cache"].
Proof. vm_compute. repeat split; reflexivity. Qed.

(** With [force], both downloads failing and a backup pattern that matches:
    the error is logged with the model name and the two links, and the call
    exits with status 1. *)
Lemma check_model_force_both_fail :
  forall DJMC wget_ok model_name url w,
    fs w !! model_name = None ->
    DJMC <> "" ->
    fs (ensure_cache_dir DJMC w) !! Py.path_join DJMC model_name <> Some Dir ->
    (forall l u, wget_ok l u = false) ->
    get_backup_model_link model_name = Some url ->
    let model_link := Py.path_join MODEL_LINKS model_name in
    let backup_model_link := Py.path_join url model_name in
    let cached_model_path := Py.path_join DJMC model_name in
    let r := check_model DJMC wget_ok model_name true w in
    fst r = Raise (SystemExit 1) /\
    log (snd r) =
      (forced_prelude DJMC cached_model_path w ++
       [EvDownload model_link cached_model_path;
        EvDownload backup_model_link cached_model_path;
        EvLog ERROR (download_error_message DJMC model_name model_link
                       backup_model_link)])%list.
Proof.
  intros DJMC wget_ok model_name url w Hlocal HD Hnd Hnet Hb
    link backup cached r.
  apply String.eqb_neq in HD.
  subst r.
  unfold check_model, forced_prelude, invalid_message, not_found_message.
  rewrite Hb. cbn [Py.path_join_opt].
  fold link backup cached. fold cached in Hnd. clearbody link backup cached.
  unfold ensure_cache_dir in *.
  step_env. rewrite Hlocal.
  destruct (fs w !! DJMC) as [d|] eqn:HDJ; step_env; rewrite ?HD; step_env;
    cbn [fst snd fs log] in Hnd;
    match goal with
    | |- context [ ?m !! cached ] => destruct (m !! cached) as [[|]|] eqn:Hc
    end; try congruence;
    cbn [fst snd fs log]; rewrite ?Hc; cbn [fst snd fs log];
    rewrite !Hnet; cbn [fst snd fs log];
    (split; [reflexivity|]); rewrite <- ?app_assoc; reflexivity.
Qed.

(** With [force], the first download failing and no backup pattern that
    matches: the call raises [UnboundLocalError] from its handler; the log
    ends with the one download that was attempted. *)
Lemma check_model_force_no_backup :
  forall DJMC wget_ok model_name w,
    fs w !! model_name = None ->
    DJMC <> "" ->
    fs (ensure_cache_dir DJMC w) !! Py.path_join DJMC model_name <> Some Dir ->
    (forall l u, wget_ok l u = false) ->
    get_backup_model_link model_name = None ->
    let model_link := Py.path_join MODEL_LINKS model_name in
    let cached_model_path := Py.path_join DJMC model_name in
    let r := check_model DJMC wget_ok model_name true w in
    fst r = Raise UnboundLocalError /\
    log (snd r) =
      (forced_prelude DJMC cached_model_path w ++
       [EvDownload model_link cached_model_path])%list.
Proof.
  intros DJMC wget_ok model_name w Hlocal HD Hnd Hnet Hb link cached r.
  apply String.eqb_neq in HD.
  subst r.
  unfold check_model, forced_prelude, invalid_message, not_found_message.
  rewrite Hb. cbn [Py.path_join_opt].
  fold link cached. fold cached in Hnd. clearbody link cached.
  unfold ensure_cache_dir in *.
  step_env. rewrite Hlocal.
  destruct (fs w !! DJMC) as [d|] eqn:HDJ; step_env; rewrite ?HD; step_env;
    cbn [fst snd fs log] in Hnd;
    match goal with
    | |- context [ ?m !! cached ] => destruct (m !! cached) as [[|]|] eqn:Hc
    end; try congruence;
    cbn [fst snd fs log]; rewrite ?Hc; cbn [fst snd fs log];
    rewrite !Hnet; cbn [fst snd fs log];
    (split; [reflexivity|]); rewrite <- ?app_assoc; reflexivity.
Qed.

(** C2, on the code.  The archive of the spacy loader matches no backup
    pattern.  With [force=True] and a download that fails, the call raises
    [UnboundLocalError]: one URL was tried, no error is logged, and the call
    does not exit. *)
Theorem check_model_unmatched_backup_raises_unbound_local :
  let model_name := "en_core_web_md-3.5.0.zip" in
  let r := check_model "/cache" (fun _ _ => false) model_name true empty_env in
  get_backup_model_link model_name = None /\
  fst r = Raise UnboundLocalError /\
  log (snd r) =
    [EvMakedirs "/cache";
     EvLog INFO (not_found_message ("/cache/" +:+ model_name));
     EvDownload (MODEL_LINKS +:+ model_name) ("/cache/" +:+ model_name)] /\
  List.filter is_error_log (log (snd r)) = [].
Proof. vm_compute. repeat split; reflexivity. Qed.

Example check_model_matched_backup_exits :
  let r := check_model "/cache" (fun _ _ => false) "lid.176.bin" true
             empty_env in
  fst r = Raise (SystemExit 1) /\
  List.filter is_error_log (log (snd r)) =
    [EvLog ERROR
       (download_error_message "/cache" "lid.176.bin"
          (MODEL_LINKS +:+ "lid.176.bin")
          ("https://dl.fbaipublicfiles.com/fasttext/supervised-models/" +:+
           "lid.176.bin"))].
Proof. vm_compute. split; reflexivity. Qed.

(** ** Device placement *)








Example move_to_cuda_mixed_tuple :
  let model := PyTuple 7 [example_module 8 "BertModel" true;
                          example_module 9 "BertTokenizer" false;
                          PyTuple 10 [example_module 11 "Inner" true]] in
  let r := move_to_cuda model (Some 2%Z) empty_env in
  fst r = Ok tt /\ to_calls (log (snd r)) = [(8, "cuda:2")].
Proof. vm_compute. split; reflexivity. Qed.

(** ** The model cache *)

Section ZooFacts.

Variable call_loader : model_func -> kwargs -> M Env pyobj.
Variable use_cuda : bool.

Lemma get_model_hit model_key rank w model :
  MODEL_ZOO w !! pid model_key = Some model ->
  get_model call_loader use_cuda (Some model_key) rank w =
    place_and_return use_cuda model rank w.
Proof.
  intros H.
  unfold get_model, place_and_return, bind, zoo_contains, zoo_get, ret.
  rewrite H. destruct use_cuda.
  - rewrite H. unfold lift_env. fold (default_rank rank).
    destruct (move_to_cuda model (default_rank rank) (env w))
      as [[[]|x] e]; proj; rewrite ?H; reflexivity.
  - rewrite H. reflexivity.
Qed.

Lemma get_model_miss model_key rank w :
  MODEL_ZOO w !! pid model_key = None ->
  get_model call_loader use_cuda (Some model_key) rank w =
    let w0 := miss_world model_key w in
    match call_loader (func model_key) (keywords model_key) (env w0) with
    | (Ok model, e) =>
        place_and_return use_cuda model rank (store model_key model e w0)
    | (Raise x, e) => (Raise x, set_env e w0)
    end.
Proof.
  intros H.
  unfold get_model, place_and_return, bind, zoo_contains, zoo_get, zoo_set,
    ret, call_partial, lift_env, emit.
  rewrite H. proj.
  destruct (call_loader _ _ _) as [[model|x] e]; proj; [|reflexivity].
  destruct use_cuda; proj; rewrite ?lookup_insert_eq; [|reflexivity].
  fold (default_rank rank). proj.
  destruct (move_to_cuda model (default_rank rank) e) as [[[]|x] e']; proj;
    rewrite ?lookup_insert_eq; reflexivity.
Qed.

Lemma prepare_model_unfold model_type model_kwargs w :
  prepare_model call_loader model_type model_kwargs w =
    match dict_get MODEL_FUNCTION_MAPPING model_type with
    | None => (Raise AssertionError, w)
    | Some f =>
        let model_key :=
          {| pid := next_pid w; func := f; keywords := model_kwargs |} in
        let w0 := {| env := env w; MODEL_ZOO := MODEL_ZOO w;
                     next_pid := S (next_pid w);
                     calls := (calls w ++ [model_key])%list |} in
        match call_loader f model_kwargs (env w) with
        | (Ok model, e) => (Ok model_key, store model_key model e w0)
        | (Raise x, e) => (Raise x, set_env e w0)
        end
    end.
Proof.
  unfold prepare_model. destruct (dict_get _ _) as [f|]; [|reflexivity].
  unfold bind, new_partial, call_partial, lift_env, zoo_set, ret. proj.
  destruct (call_loader _ _ _) as [[model|x] e]; reflexivity.
Qed.

Lemma place_and_return_frame model rank w :
  MODEL_ZOO (snd (place_and_return use_cuda model rank w)) = MODEL_ZOO w /\
  next_pid (snd (place_and_return use_cuda model rank w)) = next_pid w /\
  calls (snd (place_and_return use_cuda model rank w)) = calls w.
Proof.
  unfold place_and_return. destruct use_cuda; [|auto].
  destruct (move_to_cuda _ _ _) as [[[]|x] e]; auto.
Qed.

Lemma place_and_return_outcome model rank w :
  fst (place_and_return use_cuda model rank w) =
    outcome_of_get use_cuda model rank (env w).
Proof.
  unfold place_and_return, outcome_of_get. destruct use_cuda; [|reflexivity].
  destruct (move_to_cuda _ _ _) as [[[]|x] e]; reflexivity.
Qed.

(** Each operation keeps the keys of the table among the objects that exist,
    and keeps every entry of the table. *)
Lemma run_op_extends o w :
  zoo_wf w -> op_ok o w ->
  zoo_wf (run_op call_loader use_cuda o w) /\
  extends w (run_op call_loader use_cuda o w).
Proof.
  intros Hwf Hok. unfold zoo_wf, extends in *.
  destruct o as [model_type model_kwargs|[model_key|] rank|model rank|f kw];
    cbn [run_op].
  - rewrite prepare_model_unfold.
    destruct (dict_get _ _) as [f|]; [|proj; auto].
    destruct (call_loader _ _ _) as [[model|x] e]; proj.
    + split; [|split; [lia|]].
      * intros k Hk. destruct (decide (k = next_pid w)) as [->|Hne]; [lia|].
        rewrite lookup_insert_ne in Hk by congruence.
        apply Hwf in Hk. lia.
      * intros k m Hk. rewrite lookup_insert_ne; [assumption|].
        intros <-. assert (next_pid w < next_pid w) by eauto. lia.
    + split; [|split; [lia|auto]].
      intros k Hk. apply Hwf in Hk. lia.
  - cbn [op_ok] in Hok.
    destruct (MODEL_ZOO w !! pid model_key) as [model|] eqn:Hz.
    + rewrite (get_model_hit _ _ _ _ Hz).
      destruct (place_and_return_frame model rank w) as (-> & -> & _). auto.
    + rewrite (get_model_miss _ _ _ Hz). cbv zeta.
      destruct (call_loader _ _ _) as [[model|x] e]; [|proj; auto].
      match goal with |- context [place_and_return _ _ _ ?w0] =>
        destruct (place_and_return_frame model rank w0) as (-> & -> & _) end.
      proj. split; [|split; [lia|]].
      * intros k Hk. destruct (decide (k = pid model_key)) as [->|Hne]; [lia|].
        rewrite lookup_insert_ne in Hk by congruence. auto.
      * intros k m Hk. rewrite lookup_insert_ne; [assumption|]. congruence.
  - proj. auto.
  - unfold lift_env. destruct (move_to_cuda _ _ _) as [r e]. proj. auto.
  - unfold new_partial. proj. split; [|split; [lia|auto]].
    intros k Hk. apply Hwf in Hk. lia.
Qed.

Lemma steps_extend w w' :
  zoo_wf w -> steps call_loader use_cuda w w' -> zoo_wf w' /\ extends w w'.
Proof.
  intros Hwf Hs. induction Hs as [w|w o w' Hok Hs IH].
  - split; [assumption|]. split; [lia|auto].
  - destruct (run_op_extends o w Hwf Hok) as [Hwf1 [Hn1 Hz1]].
    destruct (IH Hwf1) as [Hwf2 [Hn2 Hz2]].
    split; [assumption|]. split; [lia|auto].
Qed.

Lemma initial_wf e : zoo_wf (initial e).
Proof.
  intros k [m Hm]. cbn [initial MODEL_ZOO] in Hm.
  rewrite lookup_empty in Hm. discriminate.
Qed.

Lemma reachable_wf w : reachable call_loader use_cuda w -> zoo_wf w.
Proof. intros [e He]. exact (proj1 (steps_extend _ _ (initial_wf e) He)). Qed.

End ZooFacts.

(** C6. [get_model] on the key [None] returns [None], for every rank and
    whatever [use_cuda()] says, and the world is left as it was: the table
    has no new entry, no key was called (so no loader ran and nothing was
    downloaded), and nothing was moved to a device. *)
Theorem get_model_none_is_noop :
  forall call_loader use_cuda rank w,
    let r := get_model call_loader use_cuda None rank w in
    fst r = Ok None /\
    snd r = w /\
    MODEL_ZOO (snd r) = MODEL_ZOO w /\
    calls (snd r) = calls w /\
    downloads (log (env (snd r))) = downloads (log (env w)) /\
    to_calls (log (env (snd r))) = to_calls (log (env w)).
Proof.
  intros call_loader use_cuda rank w r. subst r.
  cbn [get_model]. unfold ret. cbn [fst snd]. repeat split.
Qed.

(** C9. In every run of the process (registrations, gets on keys that
    exist, placements, keys made elsewhere), an entry of the table stays:
    at every later point the same key is bound to the same object, and to
    no other. *)
Theorem zoo_entries_never_replaced :
  forall call_loader use_cuda w w' k model,
    reachable call_loader use_cuda w ->
    steps call_loader use_cuda w w' ->
    MODEL_ZOO w !! k = Some model ->
    MODEL_ZOO w' !! k = Some model /\
    forall model', MODEL_ZOO w' !! k = Some model' -> model' = model.
Proof.
  intros call_loader use_cuda w w' k model Hr Hs Hk.
  destruct (steps_extend _ _ _ _ (reachable_wf _ _ _ Hr) Hs) as [_ [_ Hz]].
  assert (Hk' := Hz _ _ Hk). split; [assumption|].
  intros model' Hm. congruence.
Qed.

Lemma zoo_entries_never_replaced_witness :
  let key := {| pid := 0; func := prepare_fasttext_model; keywords := [] |} in
  let model := example_module 0 "Model" false in
  let w := run_op example_loader true (Register "fasttext" [])
             (initial empty_env) in
  let w1 := run_op example_loader true (Register "fasttext" []) w in
  let w' := run_op example_loader true (Get (Some key) None) w1 in
  MODEL_ZOO w' !! 0 = Some model /\
  forall model', MODEL_ZOO w' !! 0 = Some model' -> model' = model.
Proof.
  intros key model w w1 w'.
  apply (zoo_entries_never_replaced example_loader true w w' 0 model).
  - exists empty_env.
    exact (steps_op example_loader true (initial empty_env)
             (Register "fasttext" []) w I (steps_refl example_loader true w)).
  - apply (steps_op example_loader true w (Register "fasttext" []) w' I).
    apply (steps_op example_loader true w1 (Get (Some key) None) w').
    + vm_compute. lia.
    + apply steps_refl.
  - vm_compute. reflexivity.
Defined.

(** C5. A registration that returns, then any run of the process, then a get
    on the returned key: the entry is the object the loader returned during
    the registration; the get calls no key, leaves the table as it is, and
    returns that very object (or raises what the placement raises, when
    [use_cuda()] holds). *)
Theorem register_then_get_same_object :
  forall call_loader use_cuda model_type model_kwargs w model_key w1 w2 rank,
    reachable call_loader use_cuda w ->
    prepare_model call_loader model_type model_kwargs w = (Ok model_key, w1) ->
    steps call_loader use_cuda w1 w2 ->
    exists model,
      fst (call_loader (func model_key) (keywords model_key) (env w))
      = Ok model /\
      calls w1 = (calls w ++ [model_key])%list /\
      MODEL_ZOO w1 !! pid model_key = Some model /\
      MODEL_ZOO w2 !! pid model_key = Some model /\
      let r := get_model call_loader use_cuda (Some model_key) rank w2 in
      calls (snd r) = calls w2 /\
      MODEL_ZOO (snd r) = MODEL_ZOO w2 /\
      fst r = outcome_of_get use_cuda model rank (env w2).
Proof.
  intros call_loader use_cuda model_type model_kwargs w model_key w1 w2 rank
    Hr Hp Hs.
  assert (Hwf := reachable_wf _ _ _ Hr).
  assert (Hw1 : w1 = run_op call_loader use_cuda
                       (Register model_type model_kwargs) w)
    by (cbn [run_op]; rewrite Hp; reflexivity).
  destruct (run_op_extends call_loader use_cuda
              (Register model_type model_kwargs) w Hwf I) as [Hwf1 _].
  rewrite <- Hw1 in Hwf1. clear Hw1.
  destruct (steps_extend _ _ _ _ Hwf1 Hs) as [_ [_ Hz]].
  rewrite prepare_model_unfold in Hp.
  destruct (dict_get _ _) as [f|]; [|discriminate].
  destruct (call_loader f model_kwargs (env w)) as [[model|x] e] eqn:Hl;
    [|discriminate].
  injection Hp as <- <-. revert Hz. proj. intros Hz.
  exists model. rewrite Hl.
  assert (H2 : MODEL_ZOO w2 !! next_pid w = Some model)
    by (apply Hz, lookup_insert_eq).
  split; [reflexivity|]. split; [reflexivity|].
  split; [apply lookup_insert_eq|]. split; [exact H2|].
  rewrite (get_model_hit call_loader use_cuda
             {| pid := next_pid w; func := f; keywords := model_kwargs |}
             rank w2 model H2).
  destruct (place_and_return_frame use_cuda model rank w2)
    as (Hz2 & _ & Hc2).
  split; [exact Hc2|]. split; [exact Hz2|].
  apply place_and_return_outcome.
Qed.

Lemma register_then_get_same_object_witness :
  let w := initial empty_env in
  let kw := [("pretrained_model_name_or_path", VStr "bert-base-uncased")] in
  let model_key :=
    {| pid := 0; func := prepare_huggingface_model; keywords := kw |} in
  let w1 := snd (prepare_model example_loader "huggingface" kw w) in
  let w2 := run_op example_loader true (Register "fasttext" []) w1 in
  exists model,
    fst (example_loader (func model_key) (keywords model_key) (env w))
    = Ok model /\
    calls w1 = (calls w ++ [model_key])%list /\
    MODEL_ZOO w1 !! pid model_key = Some model /\
    MODEL_ZOO w2 !! pid model_key = Some model /\
    let r := get_model example_loader true (Some model_key) (Some 1%Z) w2 in
    calls (snd r) = calls w2 /\
    MODEL_ZOO (snd r) = MODEL_ZOO w2 /\
    fst r = outcome_of_get true model (Some 1%Z) (env w2).
Proof.
  intros w kw model_key w1 w2.
  apply (register_then_get_same_object example_loader true "huggingface" kw
           w model_key w1 w2 (Some 1%Z)).
  - exists empty_env. apply steps_refl.
  - reflexivity.
  - exact (steps_op example_loader true w1 (Register "fasttext" []) w2 I
             (steps_refl example_loader true w2)).
Defined.

(** ** Keys are compared by identity *)






(** * Further properties *)

(** ** Patterns *)

Lemma str_app_cons (x : ascii) (a b : string) :
  String x a +:+ b = String x (a +:+ b).
Proof. reflexivity. Qed.

Lemma str_app_nil_l (b : string) : "" +:+ b = b.
Proof. reflexivity. Qed.

Lemma str_app_assoc (a b c : string) : (a +:+ b) +:+ c = a +:+ (b +:+ c).
Proof.
  induction a as [|x a IH]; [reflexivity|].
  rewrite !str_app_cons. now f_equal.
Qed.

Lemma str_app_nil_r (a : string) : a +:+ "" = a.
Proof.
  induction a as [|x a IH]; [reflexivity|]. rewrite str_app_cons. now f_equal.
Qed.

Lemma str_length_app (a b : string) :
  String.length (a +:+ b) = String.length a + String.length b.
Proof.
  induction a as [|x a IH]; [reflexivity|].
  rewrite str_app_cons. cbn [String.length]. now rewrite IH.
Qed.

Lemma last_char_app (a b : string) :
  b <> "" -> last_char (a +:+ b) = last_char b.
Proof.
  intros Hb. induction a as [|x a IH]; [reflexivity|].
  rewrite str_app_cons. cbn [last_char]. rewrite IH.
  destruct (a +:+ b) eqn:E; [|reflexivity].
  destruct a; [rewrite str_app_nil_l in E; congruence|discriminate].
Qed.

Lemma glob_nil (s : string) : Py.glob "" s = true <-> s = "".
Proof. cbn. apply String.eqb_eq. Qed.

Lemma glob_plain_char (c : ascii) (p s : string) :
  plain_char c = true ->
  Py.glob (String c p) s = true <->
  exists s', s = String c s' /\ Py.glob p s' = true.
Proof.
  unfold plain_char. intros Hc. apply andb_prop in Hc as [H1 H2].
  apply negb_true_iff in H1, H2. cbn [Py.glob]. rewrite H1, H2.
  destruct s as [|d s]; [split; [discriminate|intros (s' & E & _); discriminate]|].
  split.
  - intros H. apply andb_prop in H as [Hcd Hg].
    apply Ascii.eqb_eq in Hcd. subst d. eauto.
  - intros (s' & E & Hg). injection E as -> ->.
    rewrite Ascii.eqb_refl. exact Hg.
Qed.

Lemma glob_plain_prefix (lit p s : string) :
  plain lit = true ->
  Py.glob (lit +:+ p) s = true <->
  exists s', s = lit +:+ s' /\ Py.glob p s' = true.
Proof.
  revert s. induction lit as [|c lit IH]; intros s Hl.
  - rewrite str_app_nil_l. split; [eauto|]. intros (s' & -> & H). exact H.
  - cbn [plain] in Hl. apply andb_prop in Hl as [Hc Hl].
    rewrite str_app_cons, (glob_plain_char c _ s Hc). split.
    + intros (s1 & -> & Hg). apply (IH s1 Hl) in Hg as (s' & -> & Hg). eauto.
    + intros (s' & -> & Hg). eexists. split; [reflexivity|].
      apply (IH _ Hl). eauto.
Qed.

Lemma glob_plain (lit s : string) :
  plain lit = true -> Py.glob lit s = true <-> s = lit.
Proof.
  intros Hl. rewrite <- (str_app_nil_r lit) at 1.
  rewrite (glob_plain_prefix lit "" s Hl). split.
  - intros (s' & -> & H). apply glob_nil in H. subst. apply str_app_nil_r.
  - intros ->. exists "". split; [now rewrite str_app_nil_r|]. now apply glob_nil.
Qed.

Lemma glob_star (p s : string) :
  Py.glob (String "*" p) s = true <->
  exists a b, s = a +:+ b /\ Py.glob p b = true.
Proof.
  cbn [Py.glob]. rewrite Ascii.eqb_refl.
  induction s as [|d s IH].
  - cbn. rewrite orb_false_r. split.
    + intros H. exists "", "". auto.
    + intros (a & b & E & H). destruct a; [|discriminate].
      rewrite str_app_nil_l in E. now subst.
  - split.
    + intros H. apply orb_prop in H as [H|H].
      * exists "", (String d s). auto.
      * apply IH in H as (a & b & -> & H). exists (String d a), b. auto.
    + intros (a & b & E & H). apply orb_true_iff.
      destruct a as [|x a].
      * left. rewrite str_app_nil_l in E. now subst.
      * right. rewrite str_app_cons in E. injection E as -> ->.
        apply IH. eauto.
Qed.

Lemma glob_star_suffix (lit s : string) :
  plain lit = true ->
  Py.glob (String "*" lit) s = true <-> exists a, s = a +:+ lit.
Proof.
  intros Hl. rewrite glob_star. split.
  - intros (a & b & -> & H). apply (glob_plain _ _ Hl) in H. subst. eauto.
  - intros (a & ->). exists a, lit. split; [reflexivity|]. now apply glob_plain.
Qed.

Lemma fnmatch_punkt (s : string) :
  Py.fnmatch s "punkt.*.pickle" = true <->
  exists x, s = "punkt." +:+ x +:+ ".pickle".
Proof.
  unfold Py.fnmatch.
  change "punkt.*.pickle" with ("punkt." +:+ String "*" ".pickle").
  rewrite glob_plain_prefix by reflexivity. split.
  - intros (s' & -> & H). apply glob_star_suffix in H as [a ->]; [|reflexivity].
    eauto.
  - intros (x & ->). eexists. split; [reflexivity|].
    apply glob_star_suffix; [reflexivity|]. eauto.
Qed.

Lemma fnmatch_suffix (lit s : string) :
  plain lit = true ->
  Py.fnmatch s (String "*" lit) = true <-> exists a, s = a +:+ lit.
Proof. apply glob_star_suffix. Qed.

Lemma fnmatch_plain (lit s : string) :
  plain lit = true -> Py.fnmatch s lit = true <-> s = lit.
Proof. apply glob_plain. Qed.

(** ** The backup table by the shape of the name *)

Lemma ends_in_last_char (lit s : string) :
  lit <> "" -> ends_in lit s -> last_char s = last_char lit.
Proof. intros Hl [a ->]. now apply last_char_app. Qed.

Lemma punkt_name_last_char (s : string) :
  punkt_name s -> last_char s = Some "e"%char.
Proof.
  intros [x ->]. rewrite last_char_app by (destruct x; discriminate).
  now rewrite last_char_app by discriminate.
Qed.

Lemma lid_shape :
  ~ ends_in ".sp.model" "lid.176.bin" /\
  ~ ends_in ".arpa.bin" "lid.176.bin" /\
  ~ punkt_name "lid.176.bin".
Proof.
  split; [|split].
  - intros H. apply ends_in_last_char in H; discriminate.
  - intros [a E]. assert (HL := f_equal String.length E).
    rewrite str_length_app in HL.
    destruct a as [|x [|y [|z a]]]; cbn [String.length] in HL; try lia.
    rewrite !str_app_cons, str_app_nil_l in E. discriminate E.
  - intros H. apply punkt_name_last_char in H. discriminate.
Qed.

Lemma backup_link_by_shape :
  forall model_name : string,
    (model_name = "lid.176.bin" ->
     get_backup_model_link model_name = Some fasttext_backup) /\
    (ends_in ".sp.model" model_name \/ ends_in ".arpa.bin" model_name ->
     get_backup_model_link model_name = Some kenlm_backup) /\
    (punkt_name model_name ->
     get_backup_model_link model_name = Some MODEL_LINKS) /\
    (model_name <> "lid.176.bin" ->
     ~ ends_in ".sp.model" model_name ->
     ~ ends_in ".arpa.bin" model_name ->
     ~ punkt_name model_name ->
     get_backup_model_link model_name = None).
Proof.
  intros model_name.
  assert (Hlid := fnmatch_plain "lid.176.bin" model_name eq_refl).
  assert (Hsp := fnmatch_suffix ".sp.model" model_name eq_refl).
  assert (Harpa := fnmatch_suffix ".arpa.bin" model_name eq_refl).
  assert (Hpunkt := fnmatch_punkt model_name).
  fold (ends_in ".sp.model" model_name) in Hsp.
  fold (ends_in ".arpa.bin" model_name) in Harpa.
  fold (punkt_name model_name) in Hpunkt.
  destruct lid_shape as (L1 & L2 & L3).
  unfold get_backup_model_link, BACKUP_MODEL_LINKS. cbn [first_link].
  change (String "*" ".sp.model") with "*.sp.model" in Hsp.
  change (String "*" ".arpa.bin") with "*.arpa.bin" in Harpa.
  destruct (Py.fnmatch model_name "lid.176.bin") eqn:E1.
  { assert (model_name = "lid.176.bin") by (now apply Hlid). subst.
    split; [intros _; reflexivity|].
    split; [intros [X|X]; [contradiction (L1 X)|contradiction (L2 X)]|].
    split; [intros X; contradiction (L3 X)|].
    intros X. now contradiction X. }
  assert (N1 : model_name <> "lid.176.bin")
    by (intros X; apply Hlid in X; discriminate).
  split; [intros X; contradiction (N1 X)|].
  destruct (Py.fnmatch model_name "*.sp.model") eqn:E2.
  { assert (S : ends_in ".sp.model" model_name) by (now apply Hsp).
    split; [intros _; reflexivity|].
    split; [|intros _ X; contradiction (X S)].
    intros P. exfalso. apply ends_in_last_char in S; [|discriminate].
    apply punkt_name_last_char in P. rewrite P in S. discriminate. }
  assert (N2 : ~ ends_in ".sp.model" model_name)
    by (intros X; apply Hsp in X; discriminate).
  destruct (Py.fnmatch model_name "*.arpa.bin") eqn:E3.
  { assert (S : ends_in ".arpa.bin" model_name) by (now apply Harpa).
    split; [intros _; reflexivity|].
    split; [|intros _ _ X; contradiction (X S)].
    intros P. exfalso. apply ends_in_last_char in S; [|discriminate].
    apply punkt_name_last_char in P. rewrite P in S. discriminate. }
  assert (N3 : ~ ends_in ".arpa.bin" model_name)
    by (intros X; apply Harpa in X; discriminate).
  assert (N23 : ~ (ends_in ".sp.model" model_name \/
                   ends_in ".arpa.bin" model_name))
    by (intros [X|X]; [exact (N2 X)|exact (N3 X)]).
  split; [intros X; contradiction (N23 X)|].
  destruct (Py.fnmatch model_name "punkt.*.pickle") eqn:E4.
  { assert (P : punkt_name model_name) by (now apply Hpunkt).
    split; [intros _; reflexivity|].
    intros _ _ _ X. contradiction (X P). }
  assert (N4 : ~ punkt_name model_name)
    by (intros X; apply Hpunkt in X; discriminate).
  split; [intros X; contradiction (N4 X)|].
  intros _ _ _ _. reflexivity.
Qed.

(** X1. The link of a name is decided by its shape: [lid.176.bin] has the
    fasttext link; a name that ends in [.sp.model] or in [.arpa.bin] has
    the kenlm link; a name [punkt.<x>.pickle] has the link of [MODEL_LINKS]
    itself; every other name has none. *)
Theorem get_backup_model_link_by_shape :
  forall model_name : string,
    (model_name = "lid.176.bin" ->
     get_backup_model_link model_name = Some fasttext_backup) /\
    (ends_in ".sp.model" model_name \/ ends_in ".arpa.bin" model_name ->
     get_backup_model_link model_name = Some kenlm_backup) /\
    (punkt_name model_name ->
     get_backup_model_link model_name = Some MODEL_LINKS) /\
    (model_name <> "lid.176.bin" ->
     ~ ends_in ".sp.model" model_name ->
     ~ ends_in ".arpa.bin" model_name ->
     ~ punkt_name model_name ->
     get_backup_model_link model_name = None).
Proof. intros model_name. apply backup_link_by_shape. Qed.

Lemma zip_has_no_backup (model_name : string) :
  get_backup_model_link (model_name +:+ ".zip") = None.
Proof.
  assert (L : last_char (model_name +:+ ".zip") = Some "p"%char)
    by (now rewrite last_char_app by discriminate).
  apply backup_link_by_shape.
  - intros E. rewrite E in L. discriminate.
  - intros H. apply ends_in_last_char in H; [|discriminate].
    rewrite L in H. cbn [last_char] in H. discriminate H.
  - intros H. apply ends_in_last_char in H; [|discriminate].
    rewrite L in H. cbn [last_char] in H. discriminate H.
  - intros H. apply punkt_name_last_char in H. congruence.
Qed.

Example get_backup_model_link_shapes :
  ends_in ".sp.model" "zh.sp.model" /\ punkt_name "punkt.french.pickle".
Proof. split; [now exists "zh"|now exists "french"]. Qed.

(** ** More on the resolver *)

Lemma ensure_cache_dir_has_dir (DJMC : string) (w : Env) :
  is_Some (fs (ensure_cache_dir DJMC w) !! DJMC).
Proof.
  unfold ensure_cache_dir. destruct (fs w !! DJMC) eqn:E; cbn [fs].
  - rewrite E. eauto.
  - rewrite lookup_insert_eq. eauto.
Qed.

Lemma ensure_cache_dir_other (DJMC : string) (w : Env) (p : string) :
  p <> DJMC -> fs (ensure_cache_dir DJMC w) !! p = fs w !! p.
Proof.
  intros Hp. unfold ensure_cache_dir. destruct (fs w !! DJMC); cbn [fs];
    [reflexivity|]. now rewrite lookup_insert_ne.
Qed.

Lemma ensure_cache_dir_done (DJMC : string) (w : Env) :
  is_Some (fs w !! DJMC) -> ensure_cache_dir DJMC w = w.
Proof. intros [d E]. unfold ensure_cache_dir. now rewrite E. Qed.

Lemma check_model_forced :
  forall DJMC wget_ok model_name w,
    fs w !! model_name = None ->
    DJMC <> "" ->
    fs (ensure_cache_dir DJMC w) !! Py.path_join DJMC model_name <> Some Dir ->
    check_model DJMC wget_ok model_name true w =
      forced_outcome DJMC wget_ok model_name w.
Proof.
  intros DJMC wget_ok model_name w Hlocal HD Hnd.
  apply String.eqb_neq in HD.
  unfold check_model, forced_outcome, forced_world, forced_prelude,
    invalid_message, not_found_message.
  remember (Py.path_join DJMC model_name) as cached.
  remember (Py.path_join MODEL_LINKS model_name) as link.
  destruct (get_backup_model_link model_name) as [url|];
    cbn [Py.path_join_opt];
    [remember (Py.path_join url model_name) as backup|];
    unfold ensure_cache_dir in *;
    step_env; rewrite Hlocal;
    (destruct (fs w !! DJMC) as [d|] eqn:HDJ; step_env; rewrite ?HD; step_env;
     cbn [fst snd fs log] in Hnd;
     match goal with
     | |- context [ ?m !! cached ] => destruct (m !! cached) as [[|]|] eqn:Hc
     end; try congruence;
     cbn [fst snd fs log]; rewrite ?Hc; cbn [fst snd fs log];
     repeat (rewrite <- ?app_assoc; cbn [app fst snd fs log];
             match goal with
             | |- context [wget_ok ?l ?u] => destruct (wget_ok l u)
             end);
     cbn [fst snd fs log]; rewrite ?lookup_delete_eq, ?Hc;
     rewrite <- ?app_assoc; cbn [app];
     rewrite ?insert_delete_eq, ?(delete_id _ _ Hc); reflexivity).
Qed.

(** X2. A forced resolution of a name that is no local path tries the first
    link, then, only if that failed, the backup link of the name; it returns
    the cached path as soon as one download succeeds, raises
    [UnboundLocalError] when the first fails and the name has no backup
    link, and logs the error and exits when both fail. *)
Theorem check_model_force_outcome :
  forall DJMC wget_ok model_name w,
    fs w !! model_name = None ->
    DJMC <> "" ->
    fs (ensure_cache_dir DJMC w) !! Py.path_join DJMC model_name <> Some Dir ->
    check_model DJMC wget_ok model_name true w =
      forced_outcome DJMC wget_ok model_name w.
Proof.
  intros DJMC wget_ok model_name w Hlocal HD Hnd.
  now apply check_model_forced.
Qed.

Lemma check_model_force_outcome_witness :
  check_model "/cache" (fun l _ => negb (Nat.eqb (length (downloads l)) 0))
    "en.arpa.bin" true empty_env
  = forced_outcome "/cache"
      (fun l _ => negb (Nat.eqb (length (downloads l)) 0))
      "en.arpa.bin" empty_env.
Proof.
  apply (check_model_force_outcome "/cache"
           (fun l _ => negb (Nat.eqb (length (downloads l)) 0))
           "en.arpa.bin" empty_env).
  - reflexivity.
  - discriminate.
  - vm_compute. discriminate.
Defined.

Example forced_outcome_falls_back :
  let r := forced_outcome "/cache"
             (fun l _ => negb (Nat.eqb (length (downloads l)) 0))
             "en.arpa.bin" empty_env in
  fst r = Ok "/cache/en.arpa.bin" /\
  downloads (log (snd r)) =
    [EvDownload (MODEL_LINKS +:+ "en.arpa.bin") "/cache/en.arpa.bin";
     EvDownload (kenlm_backup +:+ "en.arpa.bin") "/cache/en.arpa.bin"] /\
  fs (snd r) !! "/cache/en.arpa.bin" = Some File.
Proof. vm_compute. repeat split; reflexivity. Qed.










(** ** The two attempts of a loader *)

Lemma check_model_local (DJMC : string) wget_ok model_name force w :
  is_Some (fs w !! model_name) ->
  check_model DJMC wget_ok model_name force w = (Ok model_name, w).
Proof.
  intros [n Hn]. unfold check_model. step_env. rewrite Hn. reflexivity.
Qed.

Section RetryFacts.

Context {A : Type}.
Variable DJMC : string.
Variable wget_ok : list event -> string -> bool.
Variable load : string -> M Env A.

Lemma retry_local model_name w :
  is_Some (fs w !! model_name) ->
  (forall x w1, load model_name w = (Raise x, w1) ->
                is_Some (fs w1 !! model_name)) ->
  load_with_retry DJMC wget_ok load model_name w =
    try_except (load model_name) (load model_name) w.
Proof.
  intros Hn Hkeep. unfold load_with_retry, try_except, bind.
  rewrite (check_model_local DJMC wget_ok model_name false w Hn).
  destruct (load model_name w) as [[a|x] w1] eqn:E; [reflexivity|].
  now rewrite (check_model_local DJMC wget_ok model_name true w1
                 (Hkeep x w1 eq_refl)).
Qed.


Lemma retry_forced model_name w x :
  fs w !! model_name = None ->
  DJMC <> "" ->
  model_name <> DJMC ->
  fs (ensure_cache_dir DJMC w) !! Py.path_join DJMC model_name <> Some Dir ->
  load (Py.path_join DJMC model_name) (ensure_cache_dir DJMC w)
  = (Raise x, ensure_cache_dir DJMC w) ->
  load_with_retry DJMC wget_ok load model_name w =
    load_forced DJMC wget_ok load model_name (ensure_cache_dir DJMC w).
Proof.
  intros Hn HD Hne Hnd Hl. unfold load_with_retry, try_except, bind.
  rewrite check_model_without_force by assumption. rewrite Hl.
  assert (Hd := ensure_cache_dir_has_dir DJMC w).
  rewrite check_model_forced; [reflexivity| |assumption|].
  - now rewrite ensure_cache_dir_other.
  - now rewrite (ensure_cache_dir_done DJMC _ Hd).
Qed.

End RetryFacts.

(** ** The loaders *)

Lemma prepare_fasttext_model_unfold DJMC wget_ok fasttext_load_model
    model_name w :
  Loaders.prepare_fasttext_model DJMC wget_ok fasttext_load_model model_name w
  = load_with_retry DJMC wget_ok fasttext_load_model model_name
      (loading_world fasttext_loading w).
Proof. reflexivity. Qed.

(** X6. [prepare_fasttext_model] on a path that exists and stays there when the
    load fails: the path is never removed and nothing is downloaded, also on
    the second attempt, which asks for [force]; the library is tried on the
    same path twice. *)
Theorem prepare_fasttext_model_local_path :
  forall DJMC wget_ok fasttext_load_model model_name w,
    is_Some (fs w !! model_name) ->
    (forall x w1,
        fasttext_load_model model_name (loading_world fasttext_loading w)
        = (Raise x, w1) ->
        is_Some (fs w1 !! model_name)) ->
    Loaders.prepare_fasttext_model DJMC wget_ok fasttext_load_model
      model_name w
    = try_except (fasttext_load_model model_name)
        (fasttext_load_model model_name) (loading_world fasttext_loading w).
Proof.
  intros DJMC wget_ok fasttext_load_model model_name w Hn Hkeep.
  rewrite prepare_fasttext_model_unfold. now apply retry_local.
Qed.

Lemma prepare_fasttext_model_local_path_witness :
  let w := {| fs := {[ "/data/lid.176.bin" := Dir ]}; log := [] |} in
  Loaders.prepare_fasttext_model "/cache" (fun _ _ => true)
    (example_load "FastText") "/data/lid.176.bin" w
  = try_except (example_load "FastText" "/data/lid.176.bin")
      (example_load "FastText" "/data/lid.176.bin")
      (loading_world fasttext_loading w).
Proof.
  intros w.
  apply (prepare_fasttext_model_local_path "/cache" (fun _ _ => true)
           (example_load "FastText") "/data/lid.176.bin" w).
  - exists Dir. reflexivity.
  - intros x w1 H. vm_compute in H. injection H as _ <-.
    exists Dir. reflexivity.
Defined.

(** X7. [prepare_fasttext_model] on a name that is no local path, when the first
    load of the cached path fails (no file there, or a file the library
    cannot read) and leaves the world as it is: the name is resolved again
    with [force], and the library is run on the path that resolution returns;
    if the resolution raises, the loader raises the same. *)
Theorem prepare_fasttext_model_forced_retry :
  forall DJMC wget_ok fasttext_load_model model_name w x,
    let w1 := ensure_cache_dir DJMC (loading_world fasttext_loading w) in
    fs w !! model_name = None ->
    DJMC <> "" ->
    model_name <> DJMC ->
    fs w1 !! Py.path_join DJMC model_name <> Some Dir ->
    fasttext_load_model (Py.path_join DJMC model_name) w1 = (Raise x, w1) ->
    Loaders.prepare_fasttext_model DJMC wget_ok fasttext_load_model
      model_name w
    = load_forced DJMC wget_ok fasttext_load_model model_name w1.
Proof.
  intros DJMC wget_ok fasttext_load_model model_name w x w1
    Hn HD Hne Hnd Hl.
  rewrite prepare_fasttext_model_unfold.
  now apply (retry_forced DJMC wget_ok fasttext_load_model model_name
               (loading_world fasttext_loading w) x).
Qed.

Lemma prepare_fasttext_model_forced_retry_witness :
  let w1 := ensure_cache_dir "/cache"
              (loading_world fasttext_loading empty_env) in
  Loaders.prepare_fasttext_model "/cache" (fun _ _ => true)
    (example_load "FastText") "lid.176.bin" empty_env
  = load_forced "/cache" (fun _ _ => true) (example_load "FastText")
      "lid.176.bin" w1.
Proof.
  intros w1.
  apply (prepare_fasttext_model_forced_retry "/cache" (fun _ _ => true)
           (example_load "FastText") "lid.176.bin" empty_env
           (ExternalError "cannot open")).
  - reflexivity.
  - discriminate.
  - discriminate.
  - vm_compute. discriminate.
  - vm_compute. reflexivity.
Defined.

Example prepare_fasttext_model_cold_cache :
  let r := Loaders.prepare_fasttext_model "/cache" (fun _ _ => true)
             (example_load "FastText") "lid.176.bin" empty_env in
  fst r = Ok (example_module 4 "FastText" false) /\
  downloads (log (snd r)) =
    [EvDownload (MODEL_LINKS +:+ "lid.176.bin") "/cache/lid.176.bin"].
Proof. vm_compute. split; reflexivity. Qed.

Lemma prepare_kenlm_model_unfold DJMC wget_ok str_format kenlm_Model
    lang name_pattern model_name w :
  str_format name_pattern lang = Ok model_name ->
  Loaders.prepare_kenlm_model DJMC wget_ok str_format kenlm_Model
    lang name_pattern w
  = load_with_retry DJMC wget_ok kenlm_Model model_name
      (loading_world kenlm_loading w).
Proof.
  intros H. unfold Loaders.prepare_kenlm_model, bind at 1, lift_result.
  rewrite H. reflexivity.
Qed.

(** X8. [prepare_kenlm_model] with its default pattern, the model not in the
    cache (or unreadable there): when the first link fails and the kenlm
    backup link answers, the model is loaded from the file fetched from the
    backup link, after exactly these two downloads. *)
Theorem prepare_kenlm_model_falls_back :
  forall DJMC wget_ok str_format kenlm_Model lang w x,
    let model_name := lang +:+ ".arpa.bin" in
    let cached := Py.path_join DJMC model_name in
    let model_link := Py.path_join MODEL_LINKS model_name in
    let backup_model_link := Py.path_join kenlm_backup model_name in
    let w1 := ensure_cache_dir DJMC (loading_world kenlm_loading w) in
    let l0 := forced_prelude DJMC cached w1 in
    str_format "{}.arpa.bin" lang = Ok model_name ->
    fs w !! model_name = None ->
    DJMC <> "" ->
    model_name <> DJMC ->
    fs w1 !! cached <> Some Dir ->
    kenlm_Model cached w1 = (Raise x, w1) ->
    wget_ok l0 model_link = false ->
    wget_ok (l0 ++ [EvDownload model_link cached])%list backup_model_link
    = true ->
    Loaders.prepare_kenlm_model DJMC wget_ok str_format kenlm_Model
      lang "{}.arpa.bin" w
    = kenlm_Model cached
        (forced_world DJMC cached w1 true
           [EvDownload model_link cached;
            EvDownload backup_model_link cached]).
Proof.
  intros DJMC wget_ok str_format kenlm_Model lang w x model_name cached
    model_link backup_model_link w1 l0 Hfmt Hn HD Hne Hnd Hl Hp Hb.
  rewrite (prepare_kenlm_model_unfold _ _ _ _ _ _ _ _ Hfmt).
  rewrite (retry_forced DJMC wget_ok kenlm_Model model_name
             (loading_world kenlm_loading w) x Hn HD Hne Hnd Hl).
  unfold load_forced, forced_outcome. fold cached model_link w1 l0.
  rewrite Hp.
  assert (Hlink : get_backup_model_link model_name = Some kenlm_backup).
  { apply backup_link_by_shape. right. now exists lang. }
  rewrite Hlink. fold backup_model_link. rewrite Hb. reflexivity.
Qed.

Lemma prepare_kenlm_model_falls_back_witness :
  let wget_ok := fun (l : list event) (_ : string) =>
                   negb (Nat.eqb (length (downloads l)) 0) in
  let w1 := ensure_cache_dir "/cache"
              (loading_world kenlm_loading empty_env) in
  Loaders.prepare_kenlm_model "/cache" wget_ok example_format
    (example_load "Model") "en" "{}.arpa.bin" empty_env
  = example_load "Model" (Py.path_join "/cache" ("en" +:+ ".arpa.bin"))
      (forced_world "/cache" (Py.path_join "/cache" ("en" +:+ ".arpa.bin"))
         w1 true
         [EvDownload (Py.path_join MODEL_LINKS ("en" +:+ ".arpa.bin"))
            (Py.path_join "/cache" ("en" +:+ ".arpa.bin"));
          EvDownload (Py.path_join kenlm_backup ("en" +:+ ".arpa.bin"))
            (Py.path_join "/cache" ("en" +:+ ".arpa.bin"))]).
Proof.
  intros wget_ok w1.
  apply (prepare_kenlm_model_falls_back "/cache" wget_ok example_format
           (example_load "Model") "en" empty_env
           (ExternalError "cannot open")).
  - reflexivity.
  - reflexivity.
  - discriminate.
  - discriminate.
  - vm_compute. discriminate.
  - vm_compute. reflexivity.
  - reflexivity.
  - reflexivity.
Defined.

Lemma prepare_sentencepiece_model_unfold DJMC wget_ok str_format
    SentencePieceProcessor sentencepiece_load lang name_pattern model_name
    w sp :
  str_format name_pattern lang = Ok model_name ->
  SentencePieceProcessor (loading_world sentencepiece_loading w)
  = (Ok sp, loading_world sentencepiece_loading w) ->
  Loaders.prepare_sentencepiece_model DJMC wget_ok str_format
    SentencePieceProcessor sentencepiece_load lang name_pattern w
  = match load_with_retry DJMC wget_ok (sentencepiece_load sp) model_name
            (loading_world sentencepiece_loading w) with
    | (Ok _, w') => (Ok sp, w')
    | (Raise e, w') => (Raise e, w')
    end.
Proof.
  intros H Hsp. unfold loading_world, sentencepiece_loading in *.
  unfold Loaders.prepare_sentencepiece_model, load_with_retry, lift_result.
  unfold bind at 1. rewrite H.
  unfold bind at 1. unfold logger at 1, emit at 1.
  unfold bind at 1. rewrite Hsp.
  unfold bind at 1, ret.
  destruct (try_except _ _ _) as [[[]|e] w']; reflexivity.
Qed.

(** X9. [prepare_sentencepiece_model] with a file at the cached path that the
    processor cannot load: the file is removed, fetched again from the first
    link, and loaded into the same processor object, which is what the
    loader returns. *)
Theorem prepare_sentencepiece_model_replaces_stale_file :
  forall DJMC wget_ok str_format SentencePieceProcessor sentencepiece_load
         lang name_pattern model_name w sp x,
    let cached := Py.path_join DJMC model_name in
    let model_link := Py.path_join MODEL_LINKS model_name in
    let w0 := loading_world sentencepiece_loading w in
    let w1 := ensure_cache_dir DJMC w0 in
    let w2 := {| fs := <[cached := File]> (fs w1);
                 log := (log w1 ++
                         [EvRemove cached;
                          EvLog INFO (invalid_message cached);
                          EvDownload model_link cached])%list |} in
    str_format name_pattern lang = Ok model_name ->
    SentencePieceProcessor w0 = (Ok sp, w0) ->
    fs w !! model_name = None ->
    DJMC <> "" ->
    model_name <> DJMC ->
    fs w1 !! cached = Some File ->
    sentencepiece_load sp cached w1 = (Raise x, w1) ->
    wget_ok (log w1 ++ [EvRemove cached;
                        EvLog INFO (invalid_message cached)])%list
      model_link = true ->
    Loaders.prepare_sentencepiece_model DJMC wget_ok str_format
      SentencePieceProcessor sentencepiece_load lang name_pattern w
    = match sentencepiece_load sp cached w2 with
      | (Ok _, w3) => (Ok sp, w3)
      | (Raise e, w3) => (Raise e, w3)
      end.
Proof.
  intros DJMC wget_ok str_format SentencePieceProcessor sentencepiece_load
    lang name_pattern model_name w sp x cached model_link w0 w1 w2
    Hfmt Hsp Hn HD Hne Hc Hl Hp.
  subst cached model_link w0 w1 w2.
  rewrite (prepare_sentencepiece_model_unfold _ _ _ _ _ _ _ _ _ _ Hfmt Hsp).
  assert (Hnd : fs (ensure_cache_dir DJMC
                      (loading_world sentencepiece_loading w))
                !! Py.path_join DJMC model_name <> Some Dir)
    by (rewrite Hc; discriminate).
  rewrite (retry_forced DJMC wget_ok (sentencepiece_load sp) model_name
             (loading_world sentencepiece_loading w) x Hn HD Hne Hnd Hl).
  unfold load_forced, forced_outcome, forced_world, forced_prelude.
  rewrite (ensure_cache_dir_done DJMC _ (ensure_cache_dir_has_dir DJMC _)).
  rewrite Hc, Hp. rewrite <- app_assoc. reflexivity.
Qed.

Lemma prepare_sentencepiece_model_replaces_stale_file_witness :
  let sp := example_module 0 "SentencePieceProcessor" false in
  let w := {| fs := {[ "/cache" := Dir; "/cache/zh.sp.model" := File ]};
              log := [] |} in
  let w1 := ensure_cache_dir "/cache"
              (loading_world sentencepiece_loading w) in
  let w2 := {| fs := <[Py.path_join "/cache" "zh.sp.model" := File]> (fs w1);
               log := (log w1 ++
                       [EvRemove (Py.path_join "/cache" "zh.sp.model");
                        EvLog INFO
                          (invalid_message
                             (Py.path_join "/cache" "zh.sp.model"));
                        EvDownload (Py.path_join MODEL_LINKS "zh.sp.model")
                          (Py.path_join "/cache" "zh.sp.model")])%list |} in
  Loaders.prepare_sentencepiece_model "/cache" (fun _ _ => true)
    example_format (ret sp) (fun _ _ => raise (ExternalError "corrupt"))
    "zh" "{}.sp.model" w
  = match raise (A := unit) (ExternalError "corrupt") w2 with
    | (Ok _, w3) => (Ok sp, w3)
    | (Raise e, w3) => (Raise e, w3)
    end.
Proof.
  intros sp w w1 w2.
  apply (prepare_sentencepiece_model_replaces_stale_file "/cache"
           (fun _ _ => true) example_format (ret sp)
           (fun _ _ => raise (ExternalError "corrupt"))
           "zh" "{}.sp.model" "zh.sp.model" w sp (ExternalError "corrupt")).
  - reflexivity.
  - reflexivity.
  - reflexivity.
  - discriminate.
  - discriminate.
  - vm_compute. reflexivity.
  - reflexivity.
  - reflexivity.
Defined.

Lemma prepare_nltk_model_unfold DJMC wget_ok str_format nltk_load
    lang name_pattern punkt model_name w :
  dict_get nltk_to_punkt lang = Some punkt ->
  str_format name_pattern punkt = Ok model_name ->
  Loaders.prepare_nltk_model DJMC wget_ok str_format nltk_load
    lang name_pattern w
  = load_with_retry DJMC wget_ok nltk_load model_name
      (loading_world nltk_loading w).
Proof.
  intros Hd H. unfold Loaders.prepare_nltk_model. rewrite Hd.
  unfold bind at 1, lift_result. rewrite H. reflexivity.
Qed.

Lemma downloads_app (l1 l2 : list event) :
  downloads (l1 ++ l2) = (downloads l1 ++ downloads l2)%list.
Proof. apply List.filter_app. Qed.

Lemma downloads_forced_prelude (DJMC cached : string) (w : Env) :
  downloads (forced_prelude DJMC cached w) = downloads (log w).
Proof.
  unfold forced_prelude, ensure_cache_dir.
  destruct (fs w !! DJMC); cbn [fs log];
    match goal with |- context [ ?m !! cached ] => destruct (m !! cached) end;
    rewrite ?downloads_app; cbn; rewrite ?app_nil_r; reflexivity.
Qed.

Lemma downloads_ensure_cache_dir (DJMC : string) (w : Env) :
  downloads (log (ensure_cache_dir DJMC w)) = downloads (log w).
Proof.
  unfold ensure_cache_dir. destruct (fs w !! DJMC); cbn [log];
    [reflexivity|]. rewrite downloads_app. cbn. now rewrite app_nil_r.
Qed.

(** X10. [prepare_nltk_model] with a supported language and its default pattern:
    the backup link of a punkt model is the first link again.  When the
    model is not usable from the cache and that link fails, it is requested
    a second time, the error is logged and the call exits. *)
Theorem prepare_nltk_model_backup_is_first_link :
  forall DJMC wget_ok str_format nltk_load lang punkt w x,
    let model_name := "punkt." +:+ punkt +:+ ".pickle" in
    let cached := Py.path_join DJMC model_name in
    let link := MODEL_LINKS +:+ model_name in
    let w1 := ensure_cache_dir DJMC (loading_world nltk_loading w) in
    let r := Loaders.prepare_nltk_model DJMC wget_ok str_format nltk_load
               lang "punkt.{}.pickle" w in
    dict_get nltk_to_punkt lang = Some punkt ->
    str_format "punkt.{}.pickle" punkt = Ok model_name ->
    fs w !! model_name = None ->
    DJMC <> "" ->
    model_name <> DJMC ->
    fs w1 !! cached <> Some Dir ->
    nltk_load cached w1 = (Raise x, w1) ->
    (forall l, wget_ok l link = false) ->
    fst r = Raise (SystemExit 1) /\
    downloads (log (snd r)) =
      (downloads (log w) ++
       [EvDownload link cached; EvDownload link cached])%list.
Proof.
  intros DJMC wget_ok str_format nltk_load lang punkt w x model_name cached
    link w1 r Hd Hfmt Hn HD Hne Hnd Hl Hnet.
  subst r.
  rewrite (prepare_nltk_model_unfold _ _ _ _ _ _ _ _ _ Hd Hfmt).
  rewrite (retry_forced DJMC wget_ok nltk_load model_name
             (loading_world nltk_loading w) x Hn HD Hne Hnd Hl).
  assert (Hlink : get_backup_model_link model_name = Some MODEL_LINKS).
  { apply backup_link_by_shape. now exists punkt. }
  assert (Hj : Py.path_join MODEL_LINKS model_name = link) by reflexivity.
  unfold load_forced, forced_outcome, forced_world.
  rewrite Hlink, Hj, !Hnet. cbn [fst snd log].
  split; [reflexivity|].
  rewrite downloads_app, downloads_forced_prelude,
    downloads_ensure_cache_dir.
  unfold loading_world; cbn [log]. rewrite downloads_app.
  cbn. now rewrite app_nil_r.
Qed.

Lemma prepare_nltk_model_backup_is_first_link_witness :
  let model_name := "punkt." +:+ "french" +:+ ".pickle" in
  let r := Loaders.prepare_nltk_model "/cache" (fun _ _ => false)
             example_format (example_load "PunktSentenceTokenizer")
             "fr" "punkt.{}.pickle" empty_env in
  fst r = Raise (SystemExit 1) /\
  downloads (log (snd r)) =
    (downloads (log empty_env) ++
     [EvDownload (MODEL_LINKS +:+ model_name)
        (Py.path_join "/cache" model_name);
      EvDownload (MODEL_LINKS +:+ model_name)
        (Py.path_join "/cache" model_name)])%list.
Proof.
  intros model_name.
  apply (prepare_nltk_model_backup_is_first_link "/cache" (fun _ _ => false)
           example_format (example_load "PunktSentenceTokenizer")
           "fr" "french" empty_env (ExternalError "cannot open")).
  - reflexivity.
  - reflexivity.
  - reflexivity.
  - discriminate.
  - discriminate.
  - vm_compute. discriminate.
  - vm_compute. reflexivity.
  - reflexivity.
Defined.

Lemma prepare_spacy_model_unfold DJMC wget_ok str_format spacy_load
    zip_extractall lang name_pattern model_name w :
  str_in lang ["zh"; "en"] = true ->
  str_format name_pattern lang = Ok model_name ->
  Loaders.prepare_spacy_model DJMC wget_ok str_format spacy_load
    zip_extractall lang name_pattern w
  = load_with_retry DJMC wget_ok
      (fun path =>
         bind (Loaders.decompress_model DJMC zip_extractall path) spacy_load)
      (model_name +:+ ".zip") (loading_world (spacy_loading model_name) w).
Proof.
  intros Hl H. unfold Loaders.prepare_spacy_model. rewrite Hl. cbn [negb].
  unfold bind at 1, lift_result. rewrite H. reflexivity.
Qed.



(** X12. [prepare_spacy_model] with nothing in the cache: an archive name ends
    in [.zip] and has no backup link, so when the archive cannot be opened
    and the first link fails, the loader raises [UnboundLocalError]. *)
Theorem prepare_spacy_model_failed_download :
  forall DJMC wget_ok str_format spacy_load zip_extractall
         lang name_pattern model_name w x,
    let compressed_model := model_name +:+ ".zip" in
    let cached := Py.path_join DJMC compressed_model in
    let dir := str_replace ".zip" "" cached in
    let w1 := ensure_cache_dir DJMC
                (loading_world (spacy_loading model_name) w) in
    str_in lang ["zh"; "en"] = true ->
    str_format name_pattern lang = Ok model_name ->
    fs w !! compressed_model = None ->
    DJMC <> "" ->
    compressed_model <> DJMC ->
    fs w1 !! cached = None ->
    fs w1 !! dir <> Some Dir ->
    zip_extractall cached DJMC w1 = (Raise x, w1) ->
    wget_ok (forced_prelude DJMC cached w1)
      (Py.path_join MODEL_LINKS compressed_model) = false ->
    get_backup_model_link compressed_model = None /\
    fst (Loaders.prepare_spacy_model DJMC wget_ok str_format spacy_load
           zip_extractall lang name_pattern w)
    = Raise UnboundLocalError.
Proof.
  intros DJMC wget_ok str_format spacy_load zip_extractall lang name_pattern
    model_name w x compressed_model cached dir w1
    Hlang Hfmt Hn HD Hne Hc Hdir Hzip Hp.
  subst compressed_model cached dir w1.
  assert (Hb := zip_has_no_backup model_name).
  split; [exact Hb|].
  rewrite (prepare_spacy_model_unfold _ _ _ _ _ _ _ _ _ Hlang Hfmt).
  rewrite (retry_forced DJMC wget_ok _ (model_name +:+ ".zip")
             (loading_world (spacy_loading model_name) w) x Hn HD Hne).
  - unfold load_forced, forced_outcome. rewrite Hp, Hb. reflexivity.
  - rewrite Hc. discriminate.
  - unfold Loaders.decompress_model, os_path_is_existing_dir, bind, ret.
    destruct (fs _ !! str_replace _ _ _) as [[|]|]; try congruence;
      now rewrite Hzip.
Qed.

Lemma prepare_spacy_model_failed_download_witness :
  get_backup_model_link ("zh_core_web_md-3.5.0" +:+ ".zip") = None /\
  fst (Loaders.prepare_spacy_model "/cache" (fun _ _ => false) example_format
         (example_load_dir "Language")
         (fun _ _ => raise (ExternalError "no archive"))
         "zh" "{}_core_web_md-3.5.0" empty_env)
  = Raise UnboundLocalError.
Proof.
  apply (prepare_spacy_model_failed_download "/cache" (fun _ _ => false)
           example_format (example_load_dir "Language")
           (fun _ _ => raise (ExternalError "no archive"))
           "zh" "{}_core_web_md-3.5.0" "zh_core_web_md-3.5.0" empty_env
           (ExternalError "no archive")).
  - reflexivity.
  - reflexivity.
  - reflexivity.
  - discriminate.
  - discriminate.
  - vm_compute. reflexivity.
  - vm_compute. discriminate.
  - reflexivity.
  - reflexivity.
Defined.

(** X13. [prepare_diffusion_model] loads a pipeline exactly when the diffusion
    type is one of the three, the floating point is [fp32] or [fp16], and
    [fp16] is not asked for in cpu mode; the pipeline is then the one of the
    type, the revision is the floating point, and the dtype goes with it, so
    that in cpu mode only [fp32] with [float32] is ever loaded.  Otherwise a
    [ValueError] is raised and the world is left as it was. *)
Theorem prepare_diffusion_model_validates :
  forall use_cuda pipeline_from_pretrained name diffusion_type floating_point
         w,
    let r := Loaders.prepare_diffusion_model use_cuda
               pipeline_from_pretrained name diffusion_type floating_point
               w in
    if diffusion_config_ok use_cuda diffusion_type floating_point then
      exists pipeline,
        dict_get diffusion_type_to_pipeline diffusion_type = Some pipeline /\
        r = pipeline_from_pretrained pipeline name floating_point
              (if String.eqb floating_point "fp32" then float32
               else float16) w /\
        (floating_point = "fp32" \/ floating_point = "fp16") /\
        (use_cuda = false ->
         r = pipeline_from_pretrained pipeline name "fp32" float32 w)
    else exists msg, r = (Raise (ValueError msg), w).
Proof.
  intros use_cuda pfp name diffusion_type floating_point w r. subst r.
  unfold diffusion_config_ok, Loaders.prepare_diffusion_model.
  destruct (dict_get diffusion_type_to_pipeline diffusion_type) as [p|];
    cbn [andb]; [|eexists; reflexivity].
  cbn [str_in]. rewrite orb_false_r.
  destruct (String.eqb floating_point "fp32") eqn:E32.
  - apply String.eqb_eq in E32. subst floating_point.
    cbn [orb negb andb]. rewrite orb_true_r. cbn [andb].
    destruct use_cuda; cbn [negb andb];
      exists p; repeat split; auto.
  - destruct (String.eqb floating_point "fp16") eqn:E16;
      cbn [orb negb andb]; [|eexists; reflexivity].
    apply String.eqb_eq in E16. subst floating_point.
    rewrite orb_false_r.
    destruct use_cuda; cbn [negb andb]; [|eexists; reflexivity].
    exists p. repeat split; auto. discriminate.
Qed.

Example prepare_diffusion_model_cpu_fp16 :
  fst (Loaders.prepare_diffusion_model false
         (fun _ _ _ _ => ret (example_module 0 "Pipeline" true))
         "runwayml/stable-diffusion-v1-5" "text2image" "fp16" empty_env)
  = Raise (ValueError
             "In cpu mode, only fp32 floating_point can be used for diffusion model.").
Proof. reflexivity. Qed.

(** ** More on the cache *)

(** X14. A registration that raises adds no entry.  A model type that is no key
    of [MODEL_FUNCTION_MAPPING] is refused before a key is made or a loader
    called; when the loader raises, the key was made and called once. *)
Theorem prepare_model_failure_adds_nothing :
  forall call_loader model_type model_kwargs w,
    let r := prepare_model call_loader model_type model_kwargs w in
    (dict_get MODEL_FUNCTION_MAPPING model_type = None ->
     r = (Raise AssertionError, w)) /\
    (forall e, fst r = Raise e -> MODEL_ZOO (snd r) = MODEL_ZOO w) /\
    (forall f e,
        dict_get MODEL_FUNCTION_MAPPING model_type = Some f ->
        fst r = Raise e ->
        fst (call_loader f model_kwargs (env w)) = Raise e /\
        next_pid (snd r) = S (next_pid w) /\
        calls (snd r) =
          (calls w ++
           [{| pid := next_pid w; func := f;
               keywords := model_kwargs |}])%list).
Proof.
  intros call_loader model_type model_kwargs w r. subst r.
  rewrite prepare_model_unfold.
  destruct (dict_get MODEL_FUNCTION_MAPPING model_type) as [f|].
  - split; [discriminate|]. cbv zeta.
    destruct (call_loader f model_kwargs (env w)) as [[m|x] e'] eqn:El;
      proj.
    + split; [discriminate|]. intros f' e _ H. discriminate H.
    + split; [reflexivity|]. intros f' e Hf H. injection Hf as <-.
      cbn [fst] in H. injection H as <-. repeat split.
      now rewrite El.
  - split; [reflexivity|]. split; [reflexivity|]. discriminate.
Qed.

(** X15. A get on a key with no entry whose loader raises stores nothing, so the
    failure is not remembered: the next get on the key calls the loader
    again. *)
Theorem get_model_failure_is_not_cached :
  forall call_loader use_cuda model_key rank rank' w x e,
    MODEL_ZOO w !! pid model_key = None ->
    call_loader (func model_key) (keywords model_key)
      (env (miss_world model_key w)) = (Raise x, e) ->
    let r := get_model call_loader use_cuda (Some model_key) rank w in
    let r' := get_model call_loader use_cuda (Some model_key) rank' (snd r) in
    fst r = Raise x /\
    MODEL_ZOO (snd r) = MODEL_ZOO w /\
    calls (snd r') = (calls w ++ [model_key; model_key])%list.
Proof.
  intros call_loader use_cuda model_key rank rank' w x e Hz Hl r r'.
  subst r' r. rewrite (get_model_miss _ _ _ _ _ Hz). cbv zeta.
  rewrite Hl. proj. split; [reflexivity|]. split; [reflexivity|].
  set (w1 := {| env := e; MODEL_ZOO := MODEL_ZOO w; next_pid := next_pid w;
                calls := (calls w ++ [model_key])%list |}).
  assert (Hz1 : MODEL_ZOO w1 !! pid model_key = None) by exact Hz.
  rewrite (get_model_miss call_loader use_cuda model_key rank' w1 Hz1).
  cbv zeta.
  destruct (call_loader _ _ (env (miss_world model_key w1))) as [[m|y] e'].
  - match goal with |- context [place_and_return _ _ _ ?w2] =>
      destruct (place_and_return_frame use_cuda m rank' w2) as (_ & _ & Hc)
    end.
    rewrite Hc. subst w1. proj. now rewrite <- app_assoc.
  - subst w1. proj. now rewrite <- app_assoc.
Qed.

Lemma get_model_failure_is_not_cached_witness :
  let model_key := {| pid := 0; func := prepare_diffusion_model;
                      keywords := [] |} in
  let w := snd (new_partial prepare_diffusion_model [] (initial empty_env)) in
  let r := get_model example_loader false (Some model_key) None w in
  let r' := get_model example_loader false (Some model_key) None (snd r) in
  fst r = Raise TypeError /\
  MODEL_ZOO (snd r) = MODEL_ZOO w /\
  calls (snd r') = (calls w ++ [model_key; model_key])%list.
Proof.
  intros model_key w.
  apply (get_model_failure_is_not_cached example_loader false model_key
           None None w TypeError
           {| fs := ∅; log := [EvLogZooMiss 0] |}).
  - reflexivity.
  - reflexivity.
Defined.





Example get_model_moves_twice :
  let model_key := {| pid := 0; func := prepare_huggingface_model;
                      keywords := [] |} in
  let w := snd (prepare_model example_loader "huggingface" []
                  (initial empty_env)) in
  let r := get_model example_loader true (Some model_key) None w in
  let r' := get_model example_loader true (Some model_key) (Some 3%Z)
              (snd r) in
  to_calls (log (env (snd r'))) = [(1, "cuda:0"); (1, "cuda:3")].
Proof. vm_compute. reflexivity. Qed.
